(** * WindshaftMap (src/windshaft/map-base.js): map instantiation, error
    normalisation, host resolution and metadata queries.

    The development embeds the JavaScript of [map-base.js] shallowly:
    JSON-like values with JavaScript truthiness and property access, the
    few [String], [Array], underscore and Backbone operations the file
    calls, a state-and-exception monad for [createInstance] and the two
    completion handlers, and pure functions for the queries. *)

From Stdlib Require Import String Ascii List ZArith Bool Lia Arith.
From Stdlib Require Import DecimalString DecimalNat.
From Stdlib Require Import Sorted.
Import ListNotations.
Open Scope string_scope.

(* ================================================================== *)
(** ** JavaScript values *)
(* ================================================================== *)

(* The induction principle of [value] below reaches into its lists and
   pairs. *)
Scheme All for list.
Scheme All for prod.

(** Values as [JSON.parse] produces them, plus [undefined].  Numbers are
    the integers (no statement below depends on fractions).  The fields of
    an object are kept in enumeration order. *)
Inductive value : Type :=
| VUndefined
| VNull
| VBool (b : bool)
| VNum (n : Z)
| VStr (s : string)
| VArr (elems : list value)
| VObj (fields : list (string * value)).

Definition obj : Type := list (string * value).

(** A thrown [Error]: its [name] and its [message]. *)
Inductive exn : Type :=
| JsError (name message : string).

Definition exn_message (e : exn) : string :=
  match e with JsError _ m => m end.

(** Reading a property of [null] or [undefined]. *)
Definition TypeError_property : exn :=
  JsError "TypeError" "Cannot read property of null or undefined".

(** Calling a method the receiver does not have. *)
Definition TypeError_not_a_function : exn :=
  JsError "TypeError" "not a function".

(** The outcome of evaluating an expression: a value or a thrown
    exception. *)
Inductive result (A : Type) : Type :=
| Ok (a : A)
| Throw (e : exn).
Arguments Ok {A} a.
Arguments Throw {A} e.

Definition rbind {A B : Type} (r : result A) (k : A -> result B) : result B :=
  match r with
  | Ok a => k a
  | Throw e => Throw e
  end.

Declare Scope result_scope.
Delimit Scope result_scope with result.
Notation "x <- r ;; k" := (rbind r (fun x => k))
  (at level 61, r at next level, right associativity) : result_scope.

(** ToBoolean. *)
Definition truthy (v : value) : bool :=
  match v with
  | VUndefined | VNull => false
  | VBool b => b
  | VNum n => negb (n =? 0)%Z
  | VStr s => negb (s =? "")
  | VArr _ | VObj _ => true
  end.

(** [a === b] when one of the two is not an array or an object: such
    values are equal when they are the same value.  Two arrays, or two
    objects, are equal only when they are one and the same; the values
    here carry no identity, and two of them are taken to be distinct.
    What is stated below of a comparison is stated for an operand that
    is not an array or an object. *)
Definition strict_eq (a b : value) : bool :=
  match a, b with
  | VUndefined, VUndefined => true
  | VNull, VNull => true
  | VBool x, VBool y => Bool.eqb x y
  | VNum x, VNum y => (x =? y)%Z
  | VStr x, VStr y => (x =? y)
  | _, _ => false
  end.

Fixpoint join_strings (sep : string) (l : list string) : string :=
  match l with
  | [] => ""
  | [s] => s
  | s :: rest => s ++ sep ++ join_strings sep rest
  end.

(** The key of array index [n]: [n] in decimal. *)
Definition index_key (n : nat) : string :=
  NilZero.string_of_uint (Nat.to_uint n).

(** A number in decimal. *)
Definition number_to_string (n : Z) : string :=
  if (0 <=? n)%Z then index_key (Z.to_nat n)
  else "-" ++ index_key (Z.to_nat (- n)).

(** ToString.  An array prints as its elements joined by a comma, where
    [undefined] and [null] elements print as the empty string. *)
Fixpoint ToString (v : value) : string :=
  match v with
  | VUndefined => "undefined"
  | VNull => "null"
  | VBool true => "true"
  | VBool false => "false"
  | VNum n => number_to_string n
  | VStr s => s
  | VArr l =>
      join_strings ","
        ((fix elems (l : list value) : list string :=
            match l with
            | [] => []
            | x :: r =>
                match x with
                | VUndefined | VNull => ""
                | _ => ToString x
                end :: elems r
            end) l)
  | VObj _ => "[object Object]"
  end.

(** How [Array.prototype.join] prints one element. *)
Definition join_elem (v : value) : string :=
  match v with
  | VUndefined | VNull => ""
  | _ => ToString v
  end.

(** [l.join(sep)]. *)
Definition Array_join (l : list value) (sep : string) : string :=
  join_strings sep (map join_elem l).

(* ------------------------------------------------------------------ *)
(** *** Objects and property access *)

(** [o[k]] on the own properties of an object. *)
Fixpoint obj_get (o : obj) (k : string) : value :=
  match o with
  | [] => VUndefined
  | (k', v) :: o' => if k' =? k then v else obj_get o' k
  end.

(** [o[k] = v]: an existing key keeps its place, a new key goes last.
    (No object of the data is taken to have a key named [__proto__],
    which an assignment would read as the prototype to set.) *)
Fixpoint obj_set (o : obj) (k : string) (v : value) : obj :=
  match o with
  | [] => [(k, v)]
  | (k', v') :: o' =>
      if k' =? k then (k, v) :: o' else (k', v') :: obj_set o' k v
  end.

(** The array index a property key denotes, if it is a canonical
    numeric string. *)
Definition array_index (k : string) : option nat :=
  match NilEmpty.uint_of_string k with
  | Some u =>
      let n := Nat.of_uint u in
      if index_key n =? k then Some n else None
  | None => None
  end.

(** The own property [k] of [v], [undefined] when [v] has none of that
    name.  What [v] inherits from its prototype is found by [lookup]
    below. *)
Definition get_own (v : value) (k : string) : value :=
  match v with
  | VObj o => obj_get o k
  | VArr l =>
      if k =? "length" then VNum (Z.of_nat (List.length l))
      else match array_index k with
           | Some i => nth i l VUndefined
           | None => VUndefined
           end
  | VStr s =>
      if k =? "length" then VNum (Z.of_nat (String.length s))
      else match array_index k with
           | Some i =>
               match String.get i s with
               | Some c => VStr (String c "")
               | None => VUndefined
               end
           | None => VUndefined
           end
  | _ => VUndefined
  end.

(** [v.k] for the names map-base.js reads ([meta], [type], [widgets],
    [nodes], [layers], [dataviews], [analyses], [errors],
    [errors_with_context], [message], [http], [https]) and for an
    index: no prototype holds a property of such a name, so the read
    finds an own property or nothing.  A [TypeError] on [null] and
    [undefined]. *)
Definition prop (v : value) (k : string) : result value :=
  match v with
  | VUndefined | VNull => Throw TypeError_property
  | _ => Ok (get_own v k)
  end.

(** [v[i]] with an index. *)
Definition prop_at (v : value) (i : value) : result value :=
  prop v (ToString i).

(* ------------------------------------------------------------------ *)
(** *** Inherited properties *)

(** The prototypes of the values above. *)
Inductive prototype : Type :=
| Object_prototype
| Array_prototype
| String_prototype
| Number_prototype
| Boolean_prototype.

(** The names of the properties a prototype holds itself, as ECMAScript
    2023 and its annex B define them (an older engine has fewer of
    them).  The [length] of an array or of a string is a property of
    the value itself. *)
Definition names (p : prototype) : list string :=
  match p with
  | Object_prototype =>
      ["constructor"; "__defineGetter__"; "__defineSetter__";
       "hasOwnProperty"; "__lookupGetter__"; "__lookupSetter__";
       "isPrototypeOf"; "propertyIsEnumerable"; "toString"; "valueOf";
       "__proto__"; "toLocaleString"]
  | Array_prototype =>
      ["constructor"; "at"; "concat"; "copyWithin"; "fill"; "find";
       "findIndex"; "findLast"; "findLastIndex"; "lastIndexOf"; "pop";
       "push"; "reverse"; "shift"; "unshift"; "slice"; "sort"; "splice";
       "includes"; "indexOf"; "join"; "keys"; "entries"; "values";
       "forEach"; "filter"; "flat"; "flatMap"; "map"; "every"; "some";
       "reduce"; "reduceRight"; "toLocaleString"; "toString";
       "toReversed"; "toSorted"; "toSpliced"; "with"]
  | String_prototype =>
      ["constructor"; "anchor"; "at"; "big"; "blink"; "bold"; "charAt";
       "charCodeAt"; "codePointAt"; "concat"; "endsWith"; "fontcolor";
       "fontsize"; "fixed"; "includes"; "indexOf"; "isWellFormed";
       "italics"; "lastIndexOf"; "link"; "localeCompare"; "match";
       "matchAll"; "normalize"; "padEnd"; "padStart"; "repeat";
       "replace"; "replaceAll"; "search"; "slice"; "small"; "split";
       "strike"; "sub"; "substr"; "substring"; "sup"; "startsWith";
       "toString"; "toWellFormed"; "trim"; "trimStart"; "trimLeft";
       "trimEnd"; "trimRight"; "toLocaleLowerCase"; "toLocaleUpperCase";
       "toLowerCase"; "toUpperCase"; "valueOf"]
  | Number_prototype =>
      ["constructor"; "toExponential"; "toFixed"; "toPrecision";
       "toString"; "valueOf"; "toLocaleString"]
  | Boolean_prototype =>
      ["constructor"; "toString"; "valueOf"]
  end.

Definition holds (p : prototype) (k : string) : bool :=
  existsb (fun name => name =? k) (names p).

(** The prototype of a value; [null] and [undefined] have none. *)
Definition prototype_of (v : value) : option prototype :=
  match v with
  | VObj _ => Some Object_prototype
  | VArr _ => Some Array_prototype
  | VStr _ => Some String_prototype
  | VNum _ => Some Number_prototype
  | VBool _ => Some Boolean_prototype
  | VUndefined | VNull => None
  end.

(** What a read finds: a value of the data, or what a prototype holds
    under a name.  The latter is a function of the runtime (under
    [__proto__], the prototype of the value read): an object that is
    truthy, that no data holds, and that has no property of any of the
    names map-base.js reads. *)
Inductive property : Type :=
| Data (v : value)
| Inherited (holder : prototype) (name : string).

Definition truthy_property (p : property) : bool :=
  match p with
  | Data v => truthy v
  | Inherited _ _ => true
  end.

(** Whether [v] has an own property [k]. *)
Definition has_own (v : value) (k : string) : bool :=
  match v with
  | VObj o => existsb (fun kv => fst kv =? k) o
  | VArr l =>
      if k =? "length" then true
      else match array_index k with
           | Some i => (i <? List.length l)%nat
           | None => false
           end
  | VStr s =>
      if k =? "length" then true
      else match array_index k with
           | Some i => (i <? String.length s)%nat
           | None => false
           end
  | _ => false
  end.

(** What [v] inherits under the name [k]: from its prototype, or
    through it from [Object.prototype]. *)
Definition inherited (v : value) (k : string) : option property :=
  match prototype_of v with
  | Some p =>
      if holds p k then Some (Inherited p k)
      else if holds Object_prototype k then Some (Inherited Object_prototype k)
      else None
  | None => None
  end.

(** [v[k]] for any key [k] and a [v] that is neither [null] nor
    [undefined]: the own property, else the inherited one, else
    [undefined]. *)
Definition lookup (v : value) (k : string) : property :=
  if has_own v k then Data (get_own v k)
  else match inherited v k with
       | Some p => p
       | None => Data VUndefined
       end.

(** [v[i]] with a computed key: a [TypeError] on [null] and
    [undefined]. *)
Definition lookup_at (v : value) (i : value) : result property :=
  match v with
  | VUndefined | VNull => Throw TypeError_property
  | _ => Ok (lookup v (ToString i))
  end.

(** [p.k] for one of the names map-base.js reads: what is inherited has
    no such property. *)
Definition property_prop (p : property) (k : string) : result value :=
  match p with
  | Data v => prop v k
  | Inherited _ _ => Ok VUndefined
  end.

(* ------------------------------------------------------------------ *)
(** *** Strings *)

(** The first position at or after [i] (counting from where [s] starts)
    at which [pat] occurs in [s]. *)
Fixpoint index_from (pat s : string) (i : nat) : option nat :=
  if String.prefix pat s then Some i
  else match s with
       | EmptyString => None
       | String _ s' => index_from pat s' (S i)
       end.

(** [s.indexOf(pat)]. *)
Definition String_indexOf (s pat : string) : Z :=
  match index_from pat s 0 with
  | Some i => Z.of_nat i
  | None => (-1)%Z
  end.

(** The replacement text of [String.prototype.replace] for a string
    pattern (no capture groups): [$$] is a dollar, [$&] the matched
    text, [$`] the text before the match, [$'] the text after it; any
    other character stands for itself. *)
Fixpoint GetSubstitution (matched before after repl : string) : string :=
  match repl with
  | EmptyString => ""
  | String a tl =>
      if Ascii.eqb a "$" then
        match tl with
        | String c rest =>
            if Ascii.eqb c "$" then
              "$" ++ GetSubstitution matched before after rest
            else if Ascii.eqb c "&" then
              matched ++ GetSubstitution matched before after rest
            else if Ascii.eqb c "`" then
              before ++ GetSubstitution matched before after rest
            else if Ascii.eqb c "'" then
              after ++ GetSubstitution matched before after rest
            else String a (GetSubstitution matched before after tl)
        | EmptyString => String a ""
        end
      else String a (GetSubstitution matched before after tl)
  end.

(** [s.replace(pat, repl)] with a string pattern: the first occurrence
    only. *)
Definition String_replace (s pat repl : string) : string :=
  match index_from pat s 0 with
  | None => s
  | Some i =>
      let before := substring 0 i s in
      let after :=
        substring (i + String.length pat)
                  (String.length s - (i + String.length pat)) s in
      before ++ GetSubstitution pat before after repl ++ after
  end.

(* ================================================================== *)
(** ** underscore (1.8) on JSON values *)
(* ================================================================== *)

Fixpoint indexed_from {A : Type} (i : nat) (l : list A) : list (nat * A) :=
  match l with
  | [] => []
  | x :: r => (i, x) :: indexed_from (S i) r
  end.

(** The elements of an array-like value with their indexes. *)
Definition index_entries (l : list value) : list (value * value) :=
  map (fun ix => (VNum (Z.of_nat (fst ix)), snd ix)) (indexed_from 0 l).

Fixpoint chars (s : string) : list value :=
  match s with
  | EmptyString => []
  | String c s' => VStr (String c "") :: chars s'
  end.

Definition own_entries (o : obj) : list (value * value) :=
  map (fun kv => (VStr (fst kv), snd kv)) o.

(** The (key, element) pairs a collection function visits, in order:
    the indexes of an array-like value (an array, a string, an object
    with a numeric [length]), else the own keys of an object; nothing
    for any other value. *)
Definition entries (v : value) : list (value * value) :=
  match v with
  | VArr l => index_entries l
  | VStr s => index_entries (chars s)
  | VObj o =>
      match obj_get o "length" with
      | VNum n =>
          if (0 <=? n)%Z then
            map (fun i => (VNum (Z.of_nat i), obj_get o (index_key i)))
                (seq 0 (Z.to_nat n))
          else own_entries o
      | _ => own_entries o
      end
  | _ => []
  end.

Fixpoint mapM {A B : Type} (f : A -> result B) (l : list A) : result (list B) :=
  match l with
  | [] => Ok []
  | x :: r =>
      (y <- f x ;;
       ys <- mapM f r ;;
       Ok (y :: ys))%result
  end.

Fixpoint foldM {A B : Type} (f : A -> B -> result A) (l : list B) (memo : A)
  : result A :=
  match l with
  | [] => Ok memo
  | x :: r => (memo' <- f memo x ;; foldM f r memo')%result
  end.

(** [_.map(list, function (element) {...})]. *)
Definition _map {A : Type} (collection : value) (iteratee : value -> result A)
  : result (list A) :=
  mapM (fun kx => iteratee (snd kx)) (entries collection).

(** [_.reduce(list, function (memo, element, index) {...}, memo)]. *)
Definition _reduce {A : Type} (collection : value)
  (iteratee : A -> value -> value -> result A) (memo : A) : result A :=
  foldM (fun m kx => iteratee m (snd kx) (fst kx)) (entries collection) memo.

(** [_.compact(array)]: the truthy elements. *)
Definition _compact (array : list value) : list value :=
  filter truthy array.

(** The keys [_.extend] copies from a source: those of an object or an
    array, none of any other value. *)
Definition allKeys (source : value) : list string :=
  match source with
  | VObj o => map fst o
  | VArr l => map index_key (seq 0 (List.length l))
  | _ => []
  end.

(** [_.extend(destination, source)]: [destination[key] = source[key]]
    for every key of the source. *)
Definition _extend (destination : obj) (source : value) : obj :=
  fold_left (fun o key => obj_set o key (get_own source key)) (allKeys source)
            destination.

(** [_.isEmpty(o)] on an object. *)
Definition _isEmpty (o : obj) : bool :=
  match o with
  | [] => true
  | _ => false
  end.

(* ================================================================== *)
(** ** Backbone.Model attributes *)
(* ================================================================== *)

(** [this.get(attr)]. *)
Definition get (attributes : obj) (attr : string) : value :=
  obj_get attributes attr.

(** [this.set(attrs)]: every key of [attrs] is written over the
    attribute of that name, the other attributes stay.  A [null] or
    [undefined] argument changes nothing; a string, number or boolean is
    read as the name of one attribute, set to [undefined]. *)
Definition set (attributes : obj) (attrs : value) : obj :=
  match attrs with
  | VUndefined | VNull => attributes
  | VObj _ | VArr _ => _extend attributes attrs
  | _ => obj_set attributes (ToString attrs) VUndefined
  end.

(* ================================================================== *)
(** ** Collaborators of map-base.js *)
(* ================================================================== *)

(** Modelled from the spec: the class of [./error] (WindshaftError), which
    is not among the sources.  The spec gives it as a normalized error
    [{ message, contextual fields? }]: the message of the raw error and
    the fields the raw error came with. *)
Record WindshaftError : Type := {
  message : value;
  context : obj
}.

(** Modelled from the spec: [new WindshaftError(error)], the constructor
    of that class. *)
Definition new_WindshaftError (error : value) : WindshaftError :=
  {| message := get_own error "message";
     context := match error with VObj o => o | _ => [] end |}.

(** A caller-supplied callback: what calling it does. *)
Inductive callback : Type :=
| Returns
| Throws (e : exn).

(** The [options] of [createInstance]: the two callbacks, when given,
    [sourceId] and [forceFetch]. *)
Record Options : Type := {
  success : option callback;
  error : option callback;
  sourceId : value;
  forceFetch : value
}.

(** [options || {}]. *)
Definition default_options (options : option Options) : Options :=
  match options with
  | Some o => o
  | None =>
      {| success := None; error := None;
         sourceId := VUndefined; forceFetch := VUndefined |}
  end.

(** Modelled from the spec: the class of [./request] (Request), which is
    not among the sources: [{ definition, params, callbacks }], read by
    map-base.js as [request.payload], [request.params] and
    [request.options]. *)
Record Request : Type := {
  payload : value;
  params : obj;
  options : Options
}.

(** Deep structural equality of two values, by which fingerprints are
    compared. *)
Fixpoint value_eqb (a b : value) : bool :=
  match a, b with
  | VUndefined, VUndefined => true
  | VNull, VNull => true
  | VBool x, VBool y => Bool.eqb x y
  | VNum x, VNum y => (x =? y)%Z
  | VStr x, VStr y => (x =? y)
  | VArr l, VArr m =>
      (fix all2 (l m : list value) : bool :=
         match l, m with
         | [], [] => true
         | x :: l', y :: m' => value_eqb x y && all2 l' m'
         | _, _ => false
         end) l m
  | VObj o, VObj p =>
      (fix all2 (o p : list (string * value)) : bool :=
         match o, p with
         | [], [] => true
         | (k, x) :: o', (k', y) :: p' =>
             (k =? k') && value_eqb x y && all2 o' p'
         | _, _ => false
         end) o p
  | _, _ => false
  end.

Fixpoint insert_field (kv : string * value) (o : obj) : obj :=
  match o with
  | [] => [kv]
  | kv' :: r =>
      if String.leb (fst kv) (fst kv') then kv :: o
      else kv' :: insert_field kv r
  end.

Definition sort_fields (o : obj) : obj :=
  fold_right insert_field [] o.

(** A value with the keys of every object in it sorted: what a
    fingerprint keeps of a value. *)
Fixpoint canonical (v : value) : value :=
  match v with
  | VArr l => VArr (map canonical l)
  | VObj o =>
      VObj (sort_fields
              ((fix fields (o : list (string * value)) : obj :=
                  match o with
                  | [] => []
                  | (k, x) :: r => (k, canonical x) :: fields r
                  end) o))
  | _ => v
  end.

(** Modelled from the spec: the RequestFingerprint component (section
    4.1), which is not among the sources: a key on which two requests
    agree when their definition and params are structurally equal,
    whatever the order of their keys. *)
Definition Fingerprint : Type := (value * value)%type.

Definition fingerprint (definition : value) (params : obj) : Fingerprint :=
  (canonical definition, canonical (VObj params)).

Definition fingerprint_eqb (f g : Fingerprint) : bool :=
  value_eqb (fst f) (fst g) && value_eqb (snd f) (snd g).

Definition fingerprint_of (request : Request) : Fingerprint :=
  fingerprint (payload request) (params request).

(** Modelled from the spec: the record the RequestTracker keeps per
    fingerprint (section 3): [{ fingerprint, occurrenceCount,
    lastResponse }]. *)
Record RequestRecord : Type := {
  record_fingerprint : Fingerprint;
  occurrenceCount : nat;
  lastResponse : value
}.

(** Modelled from the spec: the class of [./request-tracker]
    (RequestTracker, section 4.2), which is not among the sources.  It
    is built with the instantiation limit; [cap] is its configured bound
    on the number of distinct fingerprints; the records are kept oldest
    first. *)
Record RequestTracker : Type := {
  limit : nat;
  cap : nat;
  records : list RequestRecord
}.

(** Modelled from the spec: [new RequestTracker(maxNumberOfRequests)],
    with no record yet. *)
Definition new_RequestTracker (maxNumberOfRequests cap : nat) : RequestTracker :=
  {| limit := maxNumberOfRequests; cap := cap; records := [] |}.

(** Modelled from the spec: the occurrence count on record for a
    fingerprint, 0 when unseen. *)
Fixpoint occurrences (rs : list RequestRecord) (f : Fingerprint) : nat :=
  match rs with
  | [] => 0
  | r :: rs' =>
      if fingerprint_eqb (record_fingerprint r) f then occurrenceCount r
      else occurrences rs' f
  end.

(** Modelled from the spec: [canBePerformed(request)], called
    [canRequestBePerformed] by map-base.js: "returns false iff the count
    is already >= InstantiationLimit.  Pure query, no mutation." *)
Definition canRequestBePerformed (t : RequestTracker) (request : Request) : bool :=
  negb (limit t <=? occurrences (records t) (fingerprint_of request))%nat.

(** Modelled from the spec: the record of [f] incremented, or created
    at count 1 if unseen; the latest response stored. *)
Fixpoint upsert (rs : list RequestRecord) (f : Fingerprint) (response : value)
  : list RequestRecord :=
  match rs with
  | [] =>
      [ {| record_fingerprint := f; occurrenceCount := 1;
           lastResponse := response |} ]
  | r :: rs' =>
      if fingerprint_eqb (record_fingerprint r) f then
        {| record_fingerprint := record_fingerprint r;
           occurrenceCount := S (occurrenceCount r);
           lastResponse := response |} :: rs'
      else r :: upsert rs' f response
  end.

(** Modelled from the spec: oldest-fingerprint eviction once the number
    of distinct fingerprints exceeds the cap. *)
Definition evict (cap : nat) (rs : list RequestRecord) : list RequestRecord :=
  skipn (List.length rs - cap) rs.

(** Modelled from the spec: [record(request, response)], called [track]
    by map-base.js: "computes the fingerprint, increments its occurrence
    count (creating a record at count=1 if unseen), stores the latest
    response, and applies the eviction policy if the distinct-fingerprint
    count exceeds the configured cap." *)
Definition track (t : RequestTracker) (request : Request) (response : value)
  : RequestTracker :=
  {| limit := limit t;
     cap := cap t;
     records :=
       evict (cap t) (upsert (records t) (fingerprint_of request) response) |}.

(** Modelled from the spec: a dataview's filter (section 6), by what its
    [isEmpty()] and its [toJSON()] do. *)
Record Filter : Type := {
  isEmpty : result bool;
  filter_toJSON : result value
}.

(** Modelled from the spec: a model of the dataviews collection (section
    6), by its [filter], if it has one. *)
Record Dataview : Type := {
  dataview_filter : option Filter
}.

(* ================================================================== *)
(** ** The object and its world *)
(* ================================================================== *)

(** A WindshaftMap: its Backbone attributes, the dataviews collection
    and the request tracker it was built with, and what the [toJSON] of
    its class does when called. *)
Record WindshaftMap : Type := {
  attributes : obj;
  _dataviewsCollection : list Dataview;
  _requestTracker : RequestTracker;
  toJSON : result value
}.

(** What the object does to its collaborators, and to itself where a
    listener can see it, in the order it happens.  The client, the model
    updater, the tracker and the log return normally; only the caller's
    code ([toJSON], the filters of the dataviews, the two callbacks) may
    throw.  [handlers] of [Client_instantiateMap] is the request the
    [success] and [error] handlers handed to the client are bound to. *)
Inductive event : Type :=
| Client_instantiateMap (mapDefinition : value) (params : obj) (handlers : Request)
| ModelUpdater_setErrors (errors : list WindshaftError)
| ModelUpdater_updateModels (this : WindshaftMap) (sourceId forceFetch : value)
| Trigger (name : string)
| Log_error (args : list value)
| Tracker_track (request : Request) (response : value)
| Model_set (attrs : value)
| Options_success (this : WindshaftMap)
| Options_error.

Record world : Type := {
  this : WindshaftMap;
  trace : list event
}.

(** Computations that read and write the world and may throw. *)
Definition M (A : Type) : Type := world -> result A * world.

Definition ret {A : Type} (a : A) : M A :=
  fun w => (Ok a, w).

Definition bind {A B : Type} (m : M A) (k : A -> M B) : M B :=
  fun w =>
    match m w with
    | (Ok a, w') => k a w'
    | (Throw e, w') => (Throw e, w')
    end.

Definition lift {A : Type} (r : result A) : M A :=
  fun w => (r, w).

(** [try { body } catch (e) { handler }]: what [body] did before it
    threw stays done. *)
Definition try_catch {A : Type} (body : M A) (handler : exn -> M A) : M A :=
  fun w =>
    match body w with
    | (Ok a, w') => (Ok a, w')
    | (Throw e, w') => handler e w'
    end.

Definition emit (e : event) : M unit :=
  fun w => (Ok tt, {| this := this w; trace := (trace w ++ [e])%list |}).

Definition read_this : M WindshaftMap :=
  fun w => (Ok (this w), w).

Definition write_this (t : WindshaftMap) : M unit :=
  fun w => (Ok tt, {| this := t; trace := trace w |}).

Declare Scope M_scope.
Delimit Scope M_scope with M.
Notation "x <- m ;; k" := (bind m (fun x => k))
  (at level 61, m at next level, right associativity) : M_scope.
Notation "m ;; k" := (bind m (fun _ => k))
  (at level 61, right associativity) : M_scope.

(** [callback && callback(...)]: nothing when the caller gave none. *)
Definition call (c : option callback) (e : event) : M unit :=
  match c with
  | None => ret tt
  | Some Returns => emit e
  | Some (Throws x) => (emit e ;; lift (Throw x))%M
  end.

(* ================================================================== *)
(** ** src/windshaft/map-base.js *)
(* ================================================================== *)

(** The max number of times the same map can be instantiated. *)
Definition MAP_INSTANTIATION_LIMIT : nat := 3.

(** What [initialize] reads of the client. *)
Record Client : Type := {
  urlTemplate : value;
  userName : value
}.

(** The [options] of [initialize]; [None] is an option not given. *)
Record InitOptions : Type := {
  client : option Client;
  layersCollection : option unit;
  dataviewsCollection : option (list Dataview);
  analysisCollection : option unit;
  modelUpdater : option unit
}.

Definition required {A : Type} (o : option A) (name : string) : result A :=
  match o with
  | Some a => Ok a
  | None => Throw (JsError "Error" (name ++ " option is required"))
  end.

(** [initialize(attrs, options)], after Backbone has stored [attrs].
    [class_toJSON] is the [toJSON] of the class being built and
    [tracker_cap] the tracker's own configured bound. *)
Definition initialize (class_toJSON : result value) (tracker_cap : nat)
  (attrs : obj) (options : InitOptions) : result WindshaftMap :=
  (c <- required (client options) "client" ;;
   _ <- required (layersCollection options) "layersCollection" ;;
   dataviews <- required (dataviewsCollection options) "dataviewsCollection" ;;
   _ <- required (analysisCollection options) "analysisCollection" ;;
   _ <- required (modelUpdater options) "modelUpdater" ;;
   Ok {| attributes :=
           set attrs (VObj [("urlTemplate", urlTemplate c);
                            ("userName", userName c)]);
         _dataviewsCollection := dataviews;
         _requestTracker := new_RequestTracker MAP_INSTANTIATION_LIMIT tracker_cap;
         toJSON := class_toJSON |})%result.

(** [toJSON] of the base class. *)
Definition base_toJSON : result value :=
  Throw (JsError "Error"
           "Subclasses of windshaft/map-base must implement .toJSON").

Definition _getParams (this : WindshaftMap) : obj :=
  let params := [("stat_tag", get (attributes this) "statTag")] in
  if truthy (get (attributes this) "apiKey") then
    obj_set params "api_key" (get (attributes this) "apiKey")
  else if truthy (get (attributes this) "authToken") then
    obj_set params "auth_token" (get (attributes this) "authToken")
  else params.

(** [filters['dataviews'] || {}]; the bucket is only ever written by
    [_getFilterParamFromDataviews], as an object. *)
Definition dataviews_bucket (filters : obj) : obj :=
  match obj_get filters "dataviews" with
  | VObj bucket => bucket
  | _ => []
  end.

Definition _getFilterParamFromDataviews (this : WindshaftMap) : result obj :=
  foldM (fun filters dataview =>
           match dataview_filter dataview with
           | Some filter =>
               (empty <- isEmpty filter ;;
                if negb empty then
                  let bucket := dataviews_bucket filters in
                  json <- filter_toJSON filter ;;
                  Ok (obj_set filters "dataviews" (VObj (_extend bucket json)))
                else Ok filters)%result
           | None => Ok filters
           end)
        (_dataviewsCollection this) [].

Definition _getErrorsFromResponse (response : value)
  : result (list WindshaftError) :=
  (errors_with_context <- prop response "errors_with_context" ;;
   if truthy errors_with_context then
     _map errors_with_context (fun error => Ok (new_WindshaftError error))
   else
     errors <- prop response "errors" ;;
     if truthy errors then
       first <- prop_at errors (VNum 0) ;;
       Ok [new_WindshaftError (VObj [("message", first)])]
     else Ok [])%result.

Definition _canPerformRequest (request : Request) : M bool :=
  (this <- read_this ;;
   ret (canRequestBePerformed (_requestTracker this) request))%M.

Definition _trackRequest (request : Request) (response : value) : M unit :=
  (emit (Tracker_track request response) ;;
   this <- read_this ;;
   write_this {| attributes := attributes this;
                 _dataviewsCollection := _dataviewsCollection this;
                 _requestTracker := track (_requestTracker this) request response;
                 toJSON := toJSON this |})%M.

(** [this.set(response)]. *)
Definition this_set (attrs : value) : M unit :=
  (emit (Model_set attrs) ;;
   this <- read_this ;;
   write_this {| attributes := set (attributes this) attrs;
                 _dataviewsCollection := _dataviewsCollection this;
                 _requestTracker := _requestTracker this;
                 toJSON := toJSON this |})%M.

(** The [success] handler [_performRequest] hands to the client. *)
Definition instantiateMap_success (request : Request) (response : value) : M unit :=
  let options := options request in
  (_trackRequest request response ;;
   this_set response ;;
   this <- read_this ;;
   emit (ModelUpdater_updateModels this (sourceId options) (forceFetch options)) ;;
   emit (Trigger "instanceCreated") ;;
   this <- read_this ;;
   call (success options) (Options_success this))%M.

(** The [error] handler [_performRequest] hands to the client. *)
Definition instantiateMap_error (request : Request) (response : value) : M unit :=
  let options := options request in
  (_trackRequest request response ;;
   windshaftErrors <- lift (_getErrorsFromResponse response) ;;
   emit (ModelUpdater_setErrors windshaftErrors) ;;
   call (error options) Options_error)%M.

(** The client is asynchronous: the call returns, and the client runs
    one of the two handlers later. *)
Definition _performRequest (request : Request) : M unit :=
  emit (Client_instantiateMap (payload request) (params request) request).

Definition ceiling_message : value :=
  VStr ("Maximum number of subsequent equal requests to the Maps API reached ("
        ++ ToString (VNum (Z.of_nat MAP_INSTANTIATION_LIMIT)) ++ "):").

Definition createInstance (options : option Options) (includeFilters : bool)
  : M unit :=
  let options := default_options options in
  try_catch
    (this <- read_this ;;
     payload <- lift (toJSON this) ;;
     let params := _getParams this in
     params <-
       (if includeFilters then
          filters <- lift (_getFilterParamFromDataviews this) ;;
          ret (if negb (_isEmpty filters)
               then obj_set params "filters" (VObj filters)
               else params)
        else ret params) ;;
     let request := Build_Request payload params options in
     can <- _canPerformRequest request ;;
     if can then _performRequest request
     else
       emit (Log_error [ceiling_message; payload; VObj params]) ;;
       call (error options) Options_error)%M
    (fun e =>
       let windshaftError :=
         new_WindshaftError (VObj [("message", VStr (exn_message e))]) in
       (emit (ModelUpdater_setErrors [windshaftError]) ;;
        emit (Log_error [VStr (exn_message e)]) ;;
        call (error options) Options_error)%M).

Definition _useHTTPS (this : WindshaftMap) : result bool :=
  match get (attributes this) "urlTemplate" with
  | VStr t => Ok (String_indexOf t "https" =? 0)%Z
  | VArr l =>
      Ok match l with
         | x :: _ => strict_eq x (VStr "https")
         | [] => false
         end
  | VUndefined | VNull => Throw TypeError_property
  | _ => Throw TypeError_not_a_function
  end.

Definition _getHost (this : WindshaftMap) (subhost : value) : result string :=
  let userName := get (attributes this) "userName" in
  (https <- _useHTTPS this ;;
   let protocol := if https then "https" else "http" in
   let subhost := if truthy subhost then ToString subhost ++ "." else "" in
   host <-
     match get (attributes this) "urlTemplate" with
     | VStr t => Ok (String_replace t "{user}" (ToString userName))
     | VUndefined | VNull => Throw TypeError_property
     | _ => Throw TypeError_not_a_function
     end ;;
   cdnHost <-
     (if truthy (get (attributes this) "cdn_url")
      then prop (get (attributes this) "cdn_url") protocol
      else Ok (get (attributes this) "cdn_url")) ;;
   Ok (if truthy cdnHost then
         Array_join [VStr protocol; VStr "://"; VStr subhost; cdnHost;
                     VStr "/"; userName] ""
       else host))%result.

Section WindshaftConfig.

(** [WindshaftConfig.MAPS_API_BASE_URL]: a constant of [./config], which
    is not among the sources. *)
Variable MAPS_API_BASE_URL : string.

Definition getBaseURL (this : WindshaftMap) (subhost : value) : result string :=
  (host <- _getHost this subhost ;;
   Ok (Array_join [VStr host; VStr MAPS_API_BASE_URL;
                   get (attributes this) "layergroupid"] "/"))%result.

End WindshaftConfig.

(** [(this.get('metadata') && this.get('metadata').key) || []]. *)
Definition metadata_list (this : WindshaftMap) (key : string) : result value :=
  (found <-
     (if truthy (get (attributes this) "metadata")
      then prop (get (attributes this) "metadata") key
      else Ok (get (attributes this) "metadata")) ;;
   Ok (if truthy found then found else VArr []))%result.

Definition _getLayers (this : WindshaftMap) : result value :=
  metadata_list this "layers".

Definition _getDataviews (this : WindshaftMap) : result value :=
  metadata_list this "dataviews".

Definition _getAnalyses (this : WindshaftMap) : result value :=
  metadata_list this "analyses".

Definition getLayerIndexesByType (this : WindshaftMap) (layerType : value)
  : result (list value) :=
  (layers <- _getLayers this ;;
   _reduce layers
     (fun layerIndexes layer index =>
        type <- prop layer "type" ;;
        Ok (if strict_eq type layerType
            then (layerIndexes ++ [index])%list
            else layerIndexes))
     [])%result.

Definition getDataviewMetadata (this : WindshaftMap) (dataviewId : value)
  : result property :=
  (dataviews <- _getDataviews this ;;
   found <-
     (if truthy dataviews then lookup_at dataviews dataviewId
      else Ok (Data dataviews)) ;;
   if truthy_property found then lookup_at dataviews dataviewId
   else
     layers <- _getLayers this ;;
     widgets <- _map layers (fun layer => prop layer "widgets") ;;
     let layersDataviews := _compact widgets in
     let dataviews := fold_left _extend layersDataviews [] in
     Ok (if truthy_property (lookup (VObj dataviews) (ToString dataviewId))
         then lookup (VObj dataviews) (ToString dataviewId)
         else Data VUndefined))%result.

Definition getAnalysisNodeMetadata (this : WindshaftMap) (analysisId : value)
  : result property :=
  (analyses <- _getAnalyses this ;;
   nodes <- _map analyses (fun analysis => prop analysis "nodes") ;;
   let metadata := fold_left _extend nodes [] in
   Ok (lookup (VObj metadata) (ToString analysisId)))%result.

Definition getSupportedSubdomains (this : WindshaftMap) : result (list string) :=
  (https <- _useHTTPS this ;;
   Ok (if negb https then ["0"; "1"; "2"; "3"] else [""]))%result.

Definition getLayerMetadata (this : WindshaftMap) (layerIndex : value)
  : result value :=
  (layers <- _getLayers this ;;
   found <-
     (if truthy layers then lookup_at layers layerIndex
      else Ok (Data layers)) ;;
   if truthy_property found then
     layer <- lookup_at layers layerIndex ;;
     meta <- property_prop layer "meta" ;;
     Ok (if truthy meta then meta else VObj [])
   else Ok (VObj []))%result.

(* ================================================================== *)
(** ** Vocabulary of the statements *)
(* ================================================================== *)

(** The request the [try] block of [createInstance] builds, or the
    exception building it throws. *)
Definition built_request (this : WindshaftMap) (options : Options)
  (includeFilters : bool) : result Request :=
  (payload <- toJSON this ;;
   let params := _getParams this in
   params <-
     (if includeFilters then
        filters <- _getFilterParamFromDataviews this ;;
        Ok (if negb (_isEmpty filters)
            then obj_set params "filters" (VObj filters)
            else params)
      else Ok params) ;;
   Ok (Build_Request payload params options))%result.

(** Whether an object has an own property [k]. *)
Definition has_key (o : obj) (k : string) : bool :=
  existsb (fun kv => fst kv =? k) o.

Definition is_instantiateMap (e : event) : bool :=
  match e with Client_instantiateMap _ _ _ => true | _ => false end.

Definition is_setErrors (e : event) : bool :=
  match e with ModelUpdater_setErrors _ => true | _ => false end.

Definition is_track (e : event) : bool :=
  match e with Tracker_track _ _ => true | _ => false end.

Definition is_error_callback (e : event) : bool :=
  match e with Options_error => true | _ => false end.

Definition is_success_callback (e : event) : bool :=
  match e with Options_success _ => true | _ => false end.

(** How many events of a kind a list holds. *)
Definition count (p : event -> bool) (evs : list event) : nat :=
  List.length (filter p evs).

(** [true] or [false] according to whether the value is [null] or
    [undefined]. *)
Definition nullish (v : value) : bool :=
  match v with
  | VUndefined | VNull => true
  | _ => false
  end.

(** What [_getParams] promises of the params of a request. *)
Definition credentials_ok (this : WindshaftMap) (params : obj) : Prop :=
  let apiKey := get (attributes this) "apiKey" in
  let authToken := get (attributes this) "authToken" in
  has_key params "stat_tag" = true
  /\ obj_get params "stat_tag" = get (attributes this) "statTag"
  /\ (truthy apiKey = true ->
      obj_get params "api_key" = apiKey
      /\ has_key params "auth_token" = false)
  /\ (truthy apiKey = false -> truthy authToken = true ->
      obj_get params "auth_token" = authToken
      /\ has_key params "api_key" = false)
  /\ (truthy apiKey = false -> truthy authToken = false ->
      has_key params "api_key" = false
      /\ has_key params "auth_token" = false)
  /\ has_key params "api_key" && has_key params "auth_token" = false.

(** The world after some more events. *)
Definition add (w : world) (evs : list event) : world :=
  {| this := this w; trace := (trace w ++ evs)%list |}.

(** The [catch] block of [createInstance]. *)
Definition createInstance_catch (options : Options) (e : exn) : M unit :=
  (emit (ModelUpdater_setErrors
           [new_WindshaftError (VObj [("message", VStr (exn_message e))])]) ;;
   emit (Log_error [VStr (exn_message e)]) ;;
   call (error options) Options_error)%M.

(** What calling a callback, when given, returns and adds to the trace. *)
Definition call_result (c : option callback) : result unit :=
  match c with
  | Some (Throws x) => Throw x
  | _ => Ok tt
  end.

Definition call_events (c : option callback) (e : event) : list event :=
  match c with
  | Some _ => [e]
  | None => []
  end.

(** What [createInstance] does once the request is built. *)
Definition createInstance_decide (opts : Options) (request : Request) : M unit :=
  (can <- _canPerformRequest request ;;
   if can then _performRequest request
   else
     emit (Log_error [ceiling_message; payload request; VObj (params request)]) ;;
     call (error opts) Options_error)%M.

(** The object once [_trackRequest(request, response)] has run. *)
Definition tracked (this : WindshaftMap) (request : Request) (response : value)
  : WindshaftMap :=
  {| attributes := attributes this;
     _dataviewsCollection := _dataviewsCollection this;
     _requestTracker := track (_requestTracker this) request response;
     toJSON := toJSON this |}.

(** The object once the [success] handler has tracked the request and
    set the response. *)
Definition instantiated (this : WindshaftMap) (request : Request)
  (response : value) : WindshaftMap :=
  {| attributes := set (attributes this) response;
     _dataviewsCollection := _dataviewsCollection this;
     _requestTracker := track (_requestTracker this) request response;
     toJSON := toJSON this |}.

(** How many of the attempts carried the fingerprint [f]. *)
Definition attempts_with (f : Fingerprint) (attempts : list (Request * value))
  : nat :=
  List.length
    (filter (fun a => fingerprint_eqb (fingerprint_of (fst a)) f) attempts).

(** The fingerprints met so far, with one more. *)
Definition met (fs : list Fingerprint) (f : Fingerprint) : list Fingerprint :=
  if existsb (fun g => fingerprint_eqb g f) fs then fs else (fs ++ [f])%list.

(** The distinct fingerprints of a list of attempts, in the order in
    which they were first met. *)
Definition distinct_fingerprints (attempts : list (Request * value))
  : list Fingerprint :=
  fold_left (fun fs a => met fs (fingerprint_of (fst a))) attempts [].

(** The tracker after a list of attempts, recorded in order. *)
Definition track_all (t : RequestTracker) (attempts : list (Request * value))
  : RequestTracker :=
  fold_left (fun t a => track t (fst a) (snd a)) attempts t.

(* ================================================================== *)
(** ** Examples *)
(* ================================================================== *)

Definition example_options : Options :=
  {| success := Some Returns; error := Some Returns;
     sourceId := VStr "a0"; forceFetch := VBool false |}.

Definition example_payload : value :=
  VObj [("layers", VArr [VObj [("type", VStr "mapnik")]])].

(** A map of account [acme] that has been instantiated once, behind a
    CDN. *)
Definition example_map (tracker : RequestTracker) (class_toJSON : result value)
  : WindshaftMap :=
  {| attributes :=
       [("statTag", VStr "tag"); ("apiKey", VStr "key");
        ("authToken", VStr "token");
        ("urlTemplate", VStr "http://{user}.example.com");
        ("userName", VStr "acme");
        ("layergroupid", VStr "old");
        ("cdn_url", VObj [("http", VStr "cdn.example.com")])];
     _dataviewsCollection := [];
     _requestTracker := tracker;
     toJSON := class_toJSON |}.

Definition example_request : Request :=
  Build_Request example_payload
    [("stat_tag", VStr "tag"); ("api_key", VStr "key")] example_options.

(** A response that carries no CDN host map. *)
Definition example_response : value :=
  VObj [("layergroupid", VStr "new");
        ("metadata",
         VObj [("layers",
                VArr [VObj [("type", VStr "mapnik");
                            ("meta", VObj [("stats", VNum 3)])]])])].

(** Three recorded attempts of the same request. *)
Definition example_attempts : list (Request * value) :=
  [(example_request, example_response);
   (example_request, VObj [("errors", VArr [VStr "timeout"])]);
   (example_request, example_response)].

Definition fresh_tracker : RequestTracker :=
  new_RequestTracker MAP_INSTANTIATION_LIMIT 8.

(** The world after those three attempts. *)
Definition ceiling_world : world :=
  {| this := example_map (track_all fresh_tracker example_attempts)
                         (Ok example_payload);
     trace := [] |}.

(** A request with another definition, and so another fingerprint. *)
Definition other_request : Request :=
  Build_Request (VObj [("layers", VArr [])])
    [("stat_tag", VStr "tag"); ("api_key", VStr "key")] example_options.

(** Three attempts of the example request, with an attempt of the other
    request after the first of them. *)
Definition interleaved_attempts : list (Request * value) :=
  [(example_request, example_response);
   (other_request, example_response);
   (example_request, VObj [("errors", VArr [VStr "timeout"])]);
   (example_request, example_response)].

(** The world after those attempts, in a tracker with a cap of 8. *)
Definition interleaved_world : world :=
  {| this := example_map
               (track_all (new_RequestTracker MAP_INSTANTIATION_LIMIT 8)
                          interleaved_attempts)
               (Ok example_payload);
     trace := [] |}.

(** A world whose map is of the base class: its [toJSON] throws. *)
Definition failing_world : world :=
  {| this := example_map fresh_tracker base_toJSON; trace := [] |}.

Definition fresh_world : world :=
  {| this := example_map fresh_tracker (Ok example_payload); trace := [] |}.

(** One step after the other. *)
Definition sequence (steps : list (M unit)) : M unit :=
  fold_right (fun step rest => bind step (fun _ => rest)) (ret tt) steps.

(** The same call made four times, the client answering each of the
    first three before the next call. *)
Definition four_identical_calls : M unit :=
  sequence
    [createInstance (Some example_options) false;
     instantiateMap_success example_request example_response;
     createInstance (Some example_options) false;
     instantiateMap_error example_request
       (VObj [("errors", VArr [VStr "timeout"])]);
     createInstance (Some example_options) false;
     instantiateMap_success example_request example_response;
     createInstance (Some example_options) false].

(* ================================================================== *)
(** ** Host resolution as the spec words it *)
(* ================================================================== *)

(** Section 4.3 of the spec, step 1: the protocol of a template. *)
Definition resolved_protocol (template : string) : string :=
  if String.prefix "https" template then "https" else "http".

(** The CDN host stored for a protocol, if one exists. *)
Definition cdn_host (this : WindshaftMap) (protocol : string) : option string :=
  let cdn_url := get (attributes this) "cdn_url" in
  if truthy cdn_url && truthy (get_own cdn_url protocol)
  then Some (join_elem (get_own cdn_url protocol))
  else None.

(** The subhost argument of [getBaseURL]: a label, or nothing. *)
Definition subhost_argument (subhost : option string) : value :=
  match subhost with
  | Some label => VStr label
  | None => VUndefined
  end.

(** The subhost followed by its separator, only when it is not empty. *)
Definition subhost_prefix (subhost : option string) : string :=
  match subhost with
  | Some label => if label =? "" then "" else label ++ "."
  | None => ""
  end.

(** Section 4.3 of the spec, steps 2 and 3: the base host. *)
Definition resolved_host (this : WindshaftMap) (template account : string)
  (subhost : option string) : string :=
  match cdn_host this (resolved_protocol template) with
  | Some cdnHost =>
      resolved_protocol template ++ "://" ++ subhost_prefix subhost
        ++ cdnHost ++ "/" ++ account
  | None => String_replace template "{user}" account
  end.




(* ================================================================== *)
(** ** Vocabulary of the further properties *)
(* ================================================================== *)




(** Whether a value is not an array or an object. *)
Definition primitive (v : value) : bool :=
  match v with
  | VArr _ | VObj _ => false
  | _ => true
  end.




(** Whether [createInstance] hands the request to the client: the
    request could be built and the tracker lets it through. *)
Definition accepted (w : world) (o : option Options) (includeFilters : bool)
  : bool :=
  match built_request (this w) (default_options o) includeFilters with
  | Ok request => canRequestBePerformed (_requestTracker (this w)) request
  | Throw _ => false
  end.

(** The events only the handlers of a response produce. *)
Definition is_completion_event (e : event) : bool :=
  match e with
  | Tracker_track _ _ | Model_set _ | ModelUpdater_updateModels _ _ _
  | Trigger _ | Options_success _ => true
  | _ => false
  end.

Definition is_log (e : event) : bool :=
  match e with Log_error _ => true | _ => false end.

(** The name of the first option [initialize] misses, in the order it
    checks them. *)
Definition first_missing (options : InitOptions) : option string :=
  match client options with
  | None => Some "client"
  | Some _ =>
      match layersCollection options with
      | None => Some "layersCollection"
      | Some _ =>
          match dataviewsCollection options with
          | None => Some "dataviewsCollection"
          | Some _ =>
              match analysisCollection options with
              | None => Some "analysisCollection"
              | Some _ =>
                  match modelUpdater options with
                  | None => Some "modelUpdater"
                  | Some _ => None
                  end
              end
          end
      end
  end.


(** Dataviews whose filters collide on a key; the filter of the second
    is empty and would throw if it were serialized. *)
Definition example_dataviews : list Dataview :=
  [ {| dataview_filter :=
         Some {| isEmpty := Ok false;
                 filter_toJSON :=
                   Ok (VObj [("category", VObj [("accept", VArr [VStr "a"])]);
                             ("range", VNum 1)]) |} |};
    {| dataview_filter :=
         Some {| isEmpty := Ok true;
                 filter_toJSON := Throw (JsError "Error" "not serializable") |} |};
    {| dataview_filter := None |};
    {| dataview_filter :=
         Some {| isEmpty := Ok false;
                 filter_toJSON := Ok (VObj [("range", VNum 2)]) |} |} ].

(** The example map with those dataviews. *)
Definition filtered_map (dataviews : list Dataview) : WindshaftMap :=
  {| attributes := attributes (example_map fresh_tracker (Ok example_payload));
     _dataviewsCollection := dataviews;
     _requestTracker := fresh_tracker;
     toJSON := Ok example_payload |}.

(** An error callback that throws. *)
Definition throwing_options : Options :=
  {| success := None; error := Some (Throws (JsError "Error" "callback failed"));
     sourceId := VUndefined; forceFetch := VUndefined |}.

(** A map of the base class at the ceiling, with a dataview whose
    filter throws. *)
Definition base_class_world : world :=
  {| this :=
       {| attributes := [];
          _dataviewsCollection :=
            [ {| dataview_filter :=
                   Some {| isEmpty := Throw (JsError "Error" "filter");
                           filter_toJSON := Ok VNull |} |} ];
          _requestTracker := track_all fresh_tracker example_attempts;
          toJSON := base_toJSON |};
     trace := [] |}.

(** The indexes of the layers whose [type] is the given one, in the
    order of the layers. *)
Definition matching_indexes (layers : list value) (layerType : value)
  : list nat :=
  map fst
      (filter (fun ix => strict_eq (get_own (snd ix) "type") layerType)
              (indexed_from 0 layers)).

(** A model that holds only a metadata attribute. *)
Definition map_with_metadata (metadata : value) : WindshaftMap :=
  {| attributes := [("metadata", metadata)];
     _dataviewsCollection := [];
     _requestTracker := fresh_tracker;
     toJSON := base_toJSON |}.

(** Metadata in which two layers and two analyses hold the same ids. *)
Definition example_metadata : value :=
  VObj [("layers",
         VArr [VObj [("type", VStr "mapnik");
                     ("widgets", VObj [("w1", VObj [("url", VStr "first")])])];
               VObj [("type", VStr "torque")];
               VObj [("type", VStr "mapnik");
                     ("widgets", VObj [("w1", VObj [("url", VStr "second")])])]]);
        ("dataviews", VObj [("d1", VObj [("url", VStr "direct")])]);
        ("analyses",
         VArr [VObj [("nodes", VObj [("a0", VObj [("status", VStr "ready")])])];
               VObj [("nodes", VObj [("a0", VObj [("status", VStr "failed")])])]])].

(** Metadata whose lists hold a [null] entry. *)
Definition broken_metadata : value :=
  VObj [("layers", VArr [VObj [("type", VStr "mapnik")]; VNull]);
        ("dataviews", VObj [("d1", VObj [("url", VStr "direct")])]);
        ("analyses", VArr [VNull])].

(* ================================================================== *)
(** ** Properties of the runtime *)
(* ================================================================== *)

(** Splits a conjunction into its parts. *)
Ltac split_all :=
  repeat match goal with
         | |- _ /\ _ => split
         end.

Lemma array_index_index_key (n : nat) : array_index (index_key n) = Some n.
Proof.
  unfold array_index.
  assert (P : NilEmpty.uint_of_string (index_key n) = Some (Nat.to_uint n)
              \/ (Nat.to_uint n = Decimal.Nil
                  /\ NilEmpty.uint_of_string (index_key n)
                     = Some (Decimal.D0 Decimal.Nil))).
  { unfold index_key.
    destruct (Nat.to_uint n) eqn:E; try (left; apply NilEmpty.usu).
    right; split; reflexivity. }
  destruct P as [P | [E P]]; rewrite P.
  - rewrite DecimalNat.Unsigned.of_to, String.eqb_refl. reflexivity.
  - assert (n = 0) as ->.
    { rewrite <- (DecimalNat.Unsigned.of_to n), E. reflexivity. }
    reflexivity.
Qed.

Lemma ToString_index (n : nat) : ToString (VNum (Z.of_nat n)) = index_key n.
Proof.
  simpl. unfold number_to_string.
  destruct (Z.leb_spec 0 (Z.of_nat n)); [ | lia ].
  now rewrite Nat2Z.id.
Qed.

Lemma index_key_not_length (n : nat) : (index_key n =? "length") = false.
Proof.
  apply String.eqb_neq. intros E.
  pose proof (array_index_index_key n) as H.
  rewrite E in H. discriminate H.
Qed.

Lemma get_own_array_index (l : list value) (n : nat) :
  get_own (VArr l) (index_key n) = nth n l VUndefined.
Proof.
  unfold get_own.
  now rewrite index_key_not_length, array_index_index_key.
Qed.

Lemma truthy_not_nullish (v : value) : truthy v = true -> nullish v = false.
Proof. destruct v; simpl; congruence. Qed.

Lemma prop_not_nullish (v : value) (k : string) :
  nullish v = false -> prop v k = Ok (get_own v k).
Proof. destruct v; simpl; congruence. Qed.

Lemma prop_truthy (v : value) (k : string) :
  truthy v = true -> prop v k = Ok (get_own v k).
Proof. intros H. apply prop_not_nullish, truthy_not_nullish, H. Qed.

Lemma obj_get_set (o : obj) (k k' : string) (v : value) :
  obj_get (obj_set o k v) k' = if k =? k' then v else obj_get o k'.
Proof.
  induction o as [ | [k0 v0] o IH ]; simpl.
  - reflexivity.
  - destruct (String.eqb_spec k0 k) as [-> | Hne]; simpl.
    + destruct (k =? k'); reflexivity.
    + rewrite IH.
      destruct (String.eqb_spec k k') as [<- | _]; [ | reflexivity ].
      now apply String.eqb_neq in Hne as ->.
Qed.

Lemma has_key_cons (k0 : string) (v0 : value) (o : obj) (k : string) :
  has_key ((k0, v0) :: o) k = (k0 =? k) || has_key o k.
Proof. reflexivity. Qed.

Lemma obj_get_no_key (o : obj) (k : string) :
  has_key o k = false -> obj_get o k = VUndefined.
Proof.
  induction o as [ | [k0 v0] o IH ]; [ reflexivity | ].
  rewrite has_key_cons. intros H. apply orb_false_iff in H as [E H].
  simpl. rewrite E. now apply IH.
Qed.

Lemma has_key_set (o : obj) (k k' : string) (v : value) :
  has_key (obj_set o k v) k' = (k =? k') || has_key o k'.
Proof.
  induction o as [ | [k0 v0] o IH ].
  - simpl. now rewrite orb_false_r.
  - cbn [obj_set]. destruct (String.eqb_spec k0 k) as [-> | Hne].
    + rewrite !has_key_cons. now rewrite orb_assoc, orb_diag.
    + rewrite !has_key_cons, IH.
      now rewrite !orb_assoc, (orb_comm (k0 =? k')).
Qed.

(** Copying a list of keys from a source: each copied key reads as in
    the source, every other key as before. *)
Lemma obj_get_copy (source : value) (keys : list string) (o : obj) (k : string) :
  obj_get (fold_left (fun o key => obj_set o key (get_own source key)) keys o) k
  = if existsb (fun key => key =? k) keys then get_own source k else obj_get o k.
Proof.
  revert o. induction keys as [ | key keys IH ]; intros o; simpl.
  - reflexivity.
  - rewrite IH, obj_get_set.
    destruct (String.eqb_spec key k) as [-> | _]; simpl.
    + now destruct (existsb _ keys).
    + reflexivity.
Qed.

Lemma existsb_map_fst (o : obj) (k : string) :
  existsb (fun key => key =? k) (map fst o) = has_key o k.
Proof.
  unfold has_key. induction o as [ | [k0 v0] o IH ]; simpl; congruence.
Qed.

(** [_.extend] with an object source. *)
Lemma obj_get_extend_obj (o source : obj) (k : string) :
  obj_get (_extend o (VObj source)) k
  = if has_key source k then obj_get source k else obj_get o k.
Proof.
  unfold _extend, allKeys. now rewrite obj_get_copy, existsb_map_fst.
Qed.

(** [this.set(response)] for an object: a key of the response reads as
    in the response, any other attribute as before. *)
Lemma get_set_obj (attributes fields : obj) (k : string) :
  get (set attributes (VObj fields)) k
  = if has_key fields k then obj_get fields k else get attributes k.
Proof. unfold get, set. apply obj_get_extend_obj. Qed.

(* ------------------------------------------------------------------ *)
(** *** Inherited properties *)

Lemma has_own_get_own (v : value) (k : string) :
  has_own v k = false -> get_own v k = VUndefined.
Proof.
  destruct v as [ | | b | n | s | l | o ]; simpl; try reflexivity.
  - destruct (k =? "length"); [ discriminate | ].
    destruct (array_index k) as [ i | ]; [ | reflexivity ].
    intros H. apply Nat.ltb_ge in H.
    destruct (String.get i s) eqn:G; [ | reflexivity ].
    assert (String.get i s = None) as E
      by (clear G; revert i H; induction s as [ | c s IH ]; intros [ | i ] H;
          simpl in *; try reflexivity; try lia; apply IH; lia).
    congruence.
  - destruct (k =? "length"); [ discriminate | ].
    destruct (array_index k) as [ i | ]; [ | reflexivity ].
    intros H. apply Nat.ltb_ge in H. now apply nth_overflow.
  - apply obj_get_no_key.
Qed.

(** An own property that is truthy is what a read finds. *)
Lemma lookup_truthy_own (v : value) (k : string) :
  truthy (get_own v k) = true -> lookup v k = Data (get_own v k).
Proof.
  intros T. unfold lookup. destruct (has_own v k) eqn:H; [ reflexivity | ].
  rewrite (has_own_get_own _ _ H) in T. discriminate T.
Qed.

(** A read finds the own property, or, when there is none, what the
    value inherits under the name. *)
Lemma lookup_cases (v : value) (k : string) :
  lookup v k = Data (get_own v k)
  \/ (get_own v k = VUndefined
      /\ exists holder, lookup v k = Inherited holder k).
Proof.
  unfold lookup. destruct (has_own v k) eqn:H; [ now left | ].
  rewrite (has_own_get_own _ _ H).
  unfold inherited. destruct (prototype_of v) as [ p | ]; [ | now left ].
  destruct (holds p k); [ right; split; eauto | ].
  destruct (holds Object_prototype k); [ right; split; eauto | now left ].
Qed.

Lemma lookup_at_truthy (v i : value) :
  truthy v = true -> lookup_at v i = Ok (lookup v (ToString i)).
Proof. destruct v; simpl; congruence. Qed.

(** The names map-base.js reads, and the index 0, are names no
    prototype holds: reading one of them finds the own property. *)
Lemma named_reads_are_own (v : value) :
  Forall (fun k => lookup v k = Data (get_own v k))
         ["meta"; "type"; "widgets"; "nodes"; "layers"; "dataviews";
          "analyses"; "errors"; "errors_with_context"; "message"; "http";
          "https"; "0"].
Proof.
  repeat constructor;
    match goal with
    | |- lookup v ?k = _ =>
        unfold lookup; destruct (has_own v k) eqn:H;
          [ reflexivity
          | rewrite (has_own_get_own _ _ H); destruct v; reflexivity ]
    end.
Qed.

(* ------------------------------------------------------------------ *)
(** *** Strings *)

Lemma prefix_append (p s : string) :
  String.prefix p s = true <-> exists rest, s = p ++ rest.
Proof.
  revert s. induction p as [ | c p IH ]; intros s.
  - split; [ intros _; now exists s | intros _; destruct s; reflexivity ].
  - destruct s as [ | c' s ]; simpl.
    + split; [ discriminate | intros [rest H]; discriminate H ].
    + destruct (Ascii.ascii_dec c c') as [-> | Hne].
      * rewrite IH. split; intros [rest H]; exists rest.
        -- now rewrite H.
        -- now injection H.
      * split; [ discriminate | ].
        intros [rest H]. injection H as H _. now elim Hne.
Qed.

Lemma index_from_ge (pat s : string) (i j : nat) :
  index_from pat s i = Some j -> i <= j.
Proof.
  revert i. induction s as [ | c s IH ]; intros i H; cbn [index_from] in H.
  - destruct (String.prefix pat ""); [ | discriminate H ].
    injection H as <-. lia.
  - destruct (String.prefix pat (String c s)).
    + injection H as <-. lia.
    + apply IH in H. lia.
Qed.

(** [s.indexOf(pat) === 0] says that [s] starts with [pat]. *)
Lemma indexOf_zero_prefix (s pat : string) :
  (String_indexOf s pat =? 0)%Z = String.prefix pat s.
Proof.
  unfold String_indexOf.
  destruct (String.prefix pat s) eqn:P.
  - destruct s; cbn [index_from]; rewrite P; reflexivity.
  - destruct (index_from pat s 0) as [ j | ] eqn:E; [ | reflexivity ].
    destruct j; [ | apply Z.eqb_neq; lia ].
    exfalso. destruct s; cbn [index_from] in E; rewrite P in E;
      [ discriminate | ].
    apply index_from_ge in E. lia.
Qed.

(* ------------------------------------------------------------------ *)
(** *** Collections *)

Lemma mapM_Ok {A B : Type} (f : A -> B) (l : list A) :
  mapM (fun x => Ok (f x)) l = Ok (map f l).
Proof.
  induction l as [ | x l IH ]; simpl; [ reflexivity | ].
  now rewrite IH.
Qed.

Lemma map_snd_indexed_from {A : Type} (i : nat) (l : list A) :
  map snd (indexed_from i l) = l.
Proof.
  revert i. induction l as [ | x l IH ]; intros i; simpl; [ reflexivity | ].
  now rewrite IH.
Qed.

Lemma map_snd_index_entries (l : list value) :
  map snd (index_entries l) = l.
Proof.
  unfold index_entries. rewrite map_map. simpl.
  apply map_snd_indexed_from.
Qed.

(** [_.map] over an array with an iteratee that does not throw. *)
Lemma _map_array_Ok {A : Type} (f : value -> A) (l : list value) :
  _map (VArr l) (fun x => Ok (f x)) = Ok (map f l).
Proof.
  unfold _map. rewrite (mapM_Ok (fun kx => f (snd kx))). simpl.
  now rewrite <- (map_map snd f), map_snd_index_entries.
Qed.

(* ================================================================== *)
(** ** Error normalisation *)
(* ================================================================== *)

(** C5.  For a response object: with a (truthy) [errors_with_context]
    field the result is one WindshaftError per entry, built from the
    whole entry, so with its context; otherwise, with a (truthy)
    [errors] field, it is exactly one WindshaftError whose message is
    the first element of that list, the rest being dropped; otherwise
    it is the empty list.  The transform is a function of the response
    alone. *)
Theorem getErrorsFromResponse_normalizes (fields : obj) :
  let response := VObj fields in
  let errors_with_context := obj_get fields "errors_with_context" in
  let errors := obj_get fields "errors" in
  (truthy errors_with_context = true ->
   _getErrorsFromResponse response
   = Ok (map (fun kx => new_WindshaftError (snd kx))
             (entries errors_with_context)))
  /\ (forall es,
        errors_with_context = VArr es ->
        _getErrorsFromResponse response = Ok (map new_WindshaftError es)
        /\ (forall i o, nth_error es i = Some (VObj o) ->
              nth_error (map new_WindshaftError es) i
              = Some {| message := obj_get o "message"; context := o |}))
  /\ (truthy errors_with_context = false ->
      truthy errors = true ->
      _getErrorsFromResponse response
      = Ok [new_WindshaftError (VObj [("message", get_own errors "0")])])
  /\ (forall first rest,
        truthy errors_with_context = false ->
        errors = VArr (first :: rest) ->
        _getErrorsFromResponse response
        = Ok [ {| message := first; context := [("message", first)] |} ])
  /\ (truthy errors_with_context = false ->
      truthy errors = false ->
      _getErrorsFromResponse response = Ok []).
Proof.
  cbv zeta. unfold _getErrorsFromResponse. simpl prop. cbn [rbind].
  split_all.
  - intros T. rewrite T. unfold _map.
    now rewrite (mapM_Ok (fun kx => new_WindshaftError (snd kx))).
  - intros es E. rewrite E. simpl truthy. cbv iota. split.
    + apply _map_array_Ok.
    + intros i o Hi. rewrite nth_error_map, Hi. reflexivity.
  - intros F T. rewrite F, T. unfold prop_at.
    rewrite (prop_truthy _ _ T). reflexivity.
  - intros first rest F E. rewrite F, E. reflexivity.
  - intros F1 F2. now rewrite F1, F2.
Qed.

Lemma getErrorsFromResponse_normalizes_witness :
  _getErrorsFromResponse
    (VObj [("errors_with_context",
            VArr [VObj [("type", VStr "layer"); ("message", VStr "m1")]]);
           ("errors", VArr [VStr "m1"])])
  = Ok [ {| message := VStr "m1";
            context := [("type", VStr "layer"); ("message", VStr "m1")] |} ]
  /\ _getErrorsFromResponse (VObj [("errors", VArr [VStr "a"; VStr "b"])])
     = Ok [ {| message := VStr "a"; context := [("message", VStr "a")] |} ]
  /\ _getErrorsFromResponse (VObj [("ok", VBool true)]) = Ok [].
Proof.
  pose proof (getErrorsFromResponse_normalizes
                [("errors_with_context",
                  VArr [VObj [("type", VStr "layer"); ("message", VStr "m1")]]);
                 ("errors", VArr [VStr "m1"])])
    as (_ & Contextual & _).
  pose proof (getErrorsFromResponse_normalizes
                [("errors", VArr [VStr "a"; VStr "b"])])
    as (_ & _ & _ & Plain & _).
  pose proof (getErrorsFromResponse_normalizes [("ok", VBool true)])
    as (_ & _ & _ & _ & Neither).
  split; [ | split ].
  - apply (Contextual
             [VObj [("type", VStr "layer"); ("message", VStr "m1")]] eq_refl).
  - apply (Plain (VStr "a") [VStr "b"]); reflexivity.
  - apply Neither; reflexivity.
Defined.

(** The three cases of section 8 of the spec. *)
Example normalizes_contextual_errors :
  _getErrorsFromResponse
    (VObj [("errors_with_context",
            VArr [VObj [("type", VStr "layer"); ("message", VStr "m1")];
                  VObj [("type", VStr "unknown"); ("message", VStr "m2")]])])
  = Ok [ {| message := VStr "m1";
            context := [("type", VStr "layer"); ("message", VStr "m1")] |};
         {| message := VStr "m2";
            context := [("type", VStr "unknown"); ("message", VStr "m2")] |} ].
Proof. reflexivity. Qed.

Example normalizes_first_plain_error :
  _getErrorsFromResponse (VObj [("errors", VArr [VStr "a"; VStr "b"])])
  = Ok [ {| message := VStr "a"; context := [("message", VStr "a")] |} ].
Proof. reflexivity. Qed.

Example normalizes_no_error :
  _getErrorsFromResponse (VObj []) = Ok [].
Proof. reflexivity. Qed.

(* ================================================================== *)
(** ** The request params *)
(* ================================================================== *)

Lemma _getParams_credentials (this : WindshaftMap) :
  credentials_ok this (_getParams this).
Proof.
  unfold credentials_ok, _getParams. cbv zeta.
  destruct (truthy (get (attributes this) "apiKey")) eqn:K;
    [ | destruct (truthy (get (attributes this) "authToken")) eqn:T ];
    repeat split; intros; try discriminate; reflexivity.
Qed.

(** Adding the [filters] key keeps what [_getParams] promised. *)
Lemma credentials_ok_filters (this : WindshaftMap) (params : obj) (filters : value) :
  credentials_ok this params ->
  credentials_ok this (obj_set params "filters" filters).
Proof.
  unfold credentials_ok. cbv zeta.
  rewrite !has_key_set, !obj_get_set. simpl.
  tauto.
Qed.

Lemma built_request_params (this : WindshaftMap) (opts : Options)
  (includeFilters : bool) (request : Request) :
  built_request this opts includeFilters = Ok request ->
  credentials_ok this (params request)
  /\ Ok (payload request) = toJSON this
  /\ options request = opts.
Proof.
  unfold built_request.
  destruct (toJSON this) as [ p | e ]; [ | discriminate ].
  cbn [rbind].
  destruct includeFilters.
  - destruct (_getFilterParamFromDataviews this) as [ filters | e ];
      [ | discriminate ].
    cbn [rbind]. intros [= <-]. cbn [params payload options].
    split; [ | split; reflexivity ].
    destruct (negb (_isEmpty filters)).
    + apply credentials_ok_filters, _getParams_credentials.
    + apply _getParams_credentials.
  - cbn [rbind]. intros [= <-]. cbn [params payload options].
    split; [ | split; reflexivity ]. apply _getParams_credentials.
Qed.

(* ================================================================== *)
(** ** Running createInstance and the handlers *)
(* ================================================================== *)

Lemma add_nil (w : world) : add w [] = w.
Proof. destruct w. unfold add. simpl. now rewrite app_nil_r. Qed.

Lemma add_add (w : world) (evs evs' : list event) :
  add (add w evs) evs' = add w (evs ++ evs').
Proof. unfold add. simpl. now rewrite app_assoc. Qed.

Lemma emit_run (e : event) (w : world) : emit e w = (Ok tt, add w [e]).
Proof. reflexivity. Qed.

Lemma call_run (c : option callback) (e : event) (w : world) :
  call c e w = (call_result c, add w (call_events c e)).
Proof.
  destruct c as [ [ | x ] | ]; simpl; try reflexivity.
  now rewrite add_nil.
Qed.

Lemma createInstance_catch_run (opts : Options) (e : exn) (w : world) :
  createInstance_catch opts e w
  = (call_result (error opts),
     add w ([ModelUpdater_setErrors
               [new_WindshaftError (VObj [("message", VStr (exn_message e))])];
             Log_error [VStr (exn_message e)]]
            ++ call_events (error opts) Options_error)).
Proof.
  unfold createInstance_catch, bind.
  rewrite !emit_run, call_run, !add_add. reflexivity.
Qed.

Lemma createInstance_try (o : option Options) (includeFilters : bool) (w : world) :
  createInstance o includeFilters w
  = try_catch
      (request <- (fun w => (built_request (this w) (default_options o) includeFilters, w)) ;;
       createInstance_decide (default_options o) request)%M
      (createInstance_catch (default_options o)) w.
Proof.
  unfold createInstance, built_request, try_catch, bind, lift, read_this, ret.
  destruct (toJSON (this w)) as [ p | e ]; cbn [rbind]; [ | reflexivity ].
  destruct includeFilters; [ | reflexivity ].
  destruct (_getFilterParamFromDataviews (this w)) as [ filters | e ];
      cbn [rbind]; reflexivity.
Qed.

Lemma createInstance_decide_run (opts : Options) (request : Request) (w : world) :
  createInstance_decide opts request w
  = if canRequestBePerformed (_requestTracker (this w)) request then
      (Ok tt, add w [Client_instantiateMap (payload request) (params request) request])
    else
      (call_result (error opts),
       add w ([Log_error [ceiling_message; payload request; VObj (params request)]]
              ++ call_events (error opts) Options_error)).
Proof.
  unfold createInstance_decide, _canPerformRequest, _performRequest, bind,
    read_this, ret.
  destruct (canRequestBePerformed _ _); [ reflexivity | ].
  now rewrite emit_run, call_run, add_add.
Qed.

(** [createInstance], case by case: building the request throws; the
    tracker lets the request through; the tracker refuses it, and the
    error callback is absent, returns, or throws into the [catch]
    block. *)
Lemma createInstance_run (o : option Options) (includeFilters : bool) (w : world) :
  createInstance o includeFilters w
  = match built_request (this w) (default_options o) includeFilters with
    | Throw e => createInstance_catch (default_options o) e w
    | Ok request =>
        if canRequestBePerformed (_requestTracker (this w)) request then
          (Ok tt,
           add w [Client_instantiateMap (payload request) (params request)
                                        request])
        else
          let logged :=
            add w ([Log_error [ceiling_message; payload request;
                               VObj (params request)]]
                   ++ call_events (error (default_options o)) Options_error) in
          match error (default_options o) with
          | Some (Throws x) => createInstance_catch (default_options o) x logged
          | _ => (Ok tt, logged)
          end
    end.
Proof.
  rewrite createInstance_try. unfold try_catch, bind.
  destruct (built_request _ _ _) as [ request | e ]; [ | reflexivity ].
  rewrite createInstance_decide_run.
  destruct (canRequestBePerformed _ _); [ reflexivity | ].
  destruct (error (default_options o)) as [ [ | x ] | ]; reflexivity.
Qed.

Lemma _trackRequest_run (request : Request) (response : value) (w : world) :
  _trackRequest request response w
  = (Ok tt, {| this := tracked (this w) request response;
               trace := (trace w ++ [Tracker_track request response])%list |}).
Proof. reflexivity. Qed.

Lemma instantiateMap_success_run (request : Request) (response : value) (w : world) :
  let this' := instantiated (this w) request response in
  instantiateMap_success request response w
  = (call_result (success (options request)),
     {| this := this';
        trace :=
          (trace w
           ++ [Tracker_track request response;
               Model_set response;
               ModelUpdater_updateModels this' (sourceId (options request))
                                         (forceFetch (options request));
               Trigger "instanceCreated"]
           ++ call_events (success (options request)) (Options_success this'))%list
     |}).
Proof.
  cbv zeta. unfold instantiateMap_success, this_set, bind, read_this, write_this.
  rewrite _trackRequest_run, !emit_run. cbn [this trace add].
  rewrite call_run. unfold add, instantiated, tracked. cbn [this trace attributes
    _dataviewsCollection _requestTracker toJSON].
  rewrite <- !app_assoc. reflexivity.
Qed.

Lemma instantiateMap_error_run (request : Request) (response : value) (w : world) :
  instantiateMap_error request response w
  = match _getErrorsFromResponse response with
    | Ok windshaftErrors =>
        (call_result (error (options request)),
         {| this := tracked (this w) request response;
            trace :=
              (trace w
               ++ [Tracker_track request response;
                   ModelUpdater_setErrors windshaftErrors]
               ++ call_events (error (options request)) Options_error)%list |})
    | Throw e =>
        (Throw e,
         {| this := tracked (this w) request response;
            trace := (trace w ++ [Tracker_track request response])%list |})
    end.
Proof.
  unfold instantiateMap_error, bind, lift.
  rewrite _trackRequest_run.
  destruct (_getErrorsFromResponse response) as [ errs | e ]; [ | reflexivity ].
  rewrite emit_run, call_run. unfold add. cbn [this trace].
  rewrite <- !app_assoc. reflexivity.
Qed.

(** [createInstance] leaves the object as it was: attempts are recorded
    by the handlers, when the client answers. *)
Lemma createInstance_frame (o : option Options) (includeFilters : bool) (w : world) :
  this (snd (createInstance o includeFilters w)) = this w.
Proof.
  rewrite createInstance_run.
  destruct (built_request _ _ _) as [ request | e ].
  - destruct (canRequestBePerformed _ _); [ reflexivity | ]. cbv zeta.
    destruct (error (default_options o)) as [ [ | x ] | ];
      try rewrite createInstance_catch_run; reflexivity.
  - rewrite createInstance_catch_run. reflexivity.
Qed.

(** A model built with all its options: the template and the account
    name are the client's, and the tracker is new, with the limit of 3. *)
Lemma initialize_state (class_toJSON : result value) (tracker_cap : nat)
  (attrs : obj) (c : Client) (dataviews : list Dataview) :
  exists this,
    initialize class_toJSON tracker_cap attrs
      {| client := Some c; layersCollection := Some tt;
         dataviewsCollection := Some dataviews;
         analysisCollection := Some tt; modelUpdater := Some tt |}
    = Ok this
    /\ get (attributes this) "urlTemplate" = urlTemplate c
    /\ get (attributes this) "userName" = userName c
    /\ limit (_requestTracker this) = 3
    /\ records (_requestTracker this) = [].
Proof.
  eexists. split; [ reflexivity | ]. cbn [attributes _requestTracker].
  rewrite !get_set_obj. repeat split.
Qed.

(* ================================================================== *)
(** ** The request tracker *)
(* ================================================================== *)

Lemma value_eqb_refl (v : value) : value_eqb v v = true.
Proof.
  induction v as [ | | b | n | s | elems IH | fields IH ]; simpl.
  - reflexivity.
  - reflexivity.
  - apply Bool.eqb_reflx.
  - apply Z.eqb_refl.
  - apply String.eqb_refl.
  - induction IH as [ | x Hx l _ IHl ]; [ reflexivity | ].
    now rewrite Hx, IHl.
  - induction IH as [ | [k x] Hx l _ IHl ]; [ reflexivity | ].
    inversion Hx as [ ? _ ? Hv ]; subst.
    now rewrite String.eqb_refl, Hv, IHl.
Qed.

Lemma fingerprint_eqb_refl (f : Fingerprint) : fingerprint_eqb f f = true.
Proof. unfold fingerprint_eqb. now rewrite !value_eqb_refl. Qed.

(** The order of the keys does not show in a fingerprint. *)
Example fingerprint_ignores_key_order :
  fingerprint (VObj [("version", VStr "1.3.0"); ("layers", VArr [])])
              [("stat_tag", VStr "tag"); ("api_key", VStr "key")]
  = fingerprint (VObj [("layers", VArr []); ("version", VStr "1.3.0")])
                [("api_key", VStr "key"); ("stat_tag", VStr "tag")].
Proof. reflexivity. Qed.

Lemma evict_length (cap : nat) (rs : list RequestRecord) :
  List.length (evict cap rs) <= cap.
Proof. unfold evict. rewrite length_skipn. lia. Qed.

Lemma count_app (p : event -> bool) (evs evs' : list event) :
  count p (evs ++ evs') = count p evs + count p evs'.
Proof. unfold count. now rewrite filter_app, length_app. Qed.

Lemma count_call_events (p : event -> bool) (c : option callback) (e : event) :
  count p (call_events c e)
  = match c with Some _ => if p e then 1 else 0 | None => 0 end.
Proof. destruct c; [ | reflexivity ]. unfold count. simpl. now destruct (p e). Qed.

Lemma _getErrorsFromResponse_total (response : value) :
  nullish response = false ->
  exists windshaftErrors, _getErrorsFromResponse response = Ok windshaftErrors.
Proof.
  intros N. unfold _getErrorsFromResponse.
  rewrite !(prop_not_nullish _ _ N). cbn [rbind].
  destruct (truthy (get_own response "errors_with_context")).
  - unfold _map.
    rewrite (mapM_Ok (fun kx => new_WindshaftError (snd kx))). eauto.
  - destruct (truthy (get_own response "errors")) eqn:T; [ | eauto ].
    unfold prop_at. rewrite (prop_truthy _ _ T). cbn [rbind]. eauto.
Qed.

Lemma value_eqb_eq (a b : value) : value_eqb a b = true -> a = b.
Proof.
  revert b.
  induction a as [ | | x | x | x | elems IH | fields IH ];
    intros b H; destruct b as [ | | y | y | y | elems' | fields' ];
    try discriminate H; try reflexivity.
  - simpl in H. apply Bool.eqb_prop in H. now subst.
  - simpl in H. apply Z.eqb_eq in H. now subst.
  - simpl in H. apply String.eqb_eq in H. now subst.
  - f_equal. cbn [value_eqb] in H. revert elems' H.
    induction IH as [ | x Hx l _ IHl ]; intros [ | y m ] H;
      try discriminate H; [ reflexivity | ].
    apply andb_true_iff in H as [H1 H2].
    now rewrite (Hx _ H1), (IHl _ H2).
  - f_equal. cbn [value_eqb] in H. revert fields' H.
    induction IH as [ | [k x] Hx l _ IHl ]; intros [ | [k' y] m ] H;
      try discriminate H; [ reflexivity | ].
    apply andb_true_iff in H as [H1 H2].
    apply andb_true_iff in H1 as [H0 H1].
    apply String.eqb_eq in H0. subst k'.
    inversion Hx as [ ? _ ? Hv ]; subst.
    now rewrite (Hv _ H1), (IHl _ H2).
Qed.

(** Two fingerprints compare equal exactly when they are the same. *)
Lemma fingerprint_eqb_eq (f g : Fingerprint) :
  fingerprint_eqb f g = true <-> f = g.
Proof.
  split; [ | intros ->; apply fingerprint_eqb_refl ].
  destruct f as [f1 f2], g as [g1 g2]. unfold fingerprint_eqb. simpl.
  intros H. apply andb_true_iff in H as [H1 H2].
  now rewrite (value_eqb_eq _ _ H1), (value_eqb_eq _ _ H2).
Qed.

(** Recording a fingerprint adds one to its count and leaves every
    other count as it was. *)
Lemma occurrences_upsert (rs : list RequestRecord) (g f : Fingerprint)
  (response : value) :
  occurrences (upsert rs g response) f
  = occurrences rs f + (if fingerprint_eqb g f then 1 else 0).
Proof.
  induction rs as [ | r rs IH ]; simpl.
  - now destruct (fingerprint_eqb g f).
  - destruct (fingerprint_eqb (record_fingerprint r) g) eqn:E; simpl.
    + apply fingerprint_eqb_eq in E. subst g.
      destruct (fingerprint_eqb (record_fingerprint r) f); lia.
    + destruct (fingerprint_eqb (record_fingerprint r) f) eqn:E'; [ | exact IH ].
      apply fingerprint_eqb_eq in E'. subst f.
      destruct (fingerprint_eqb g (record_fingerprint r)) eqn:E''; [ | lia ].
      apply fingerprint_eqb_eq in E''. subst g.
      now rewrite fingerprint_eqb_refl in E.
Qed.

(** The fingerprints on record after one more is recorded. *)
Lemma fingerprints_upsert (rs : list RequestRecord) (f : Fingerprint)
  (response : value) :
  map record_fingerprint (upsert rs f response)
  = met (map record_fingerprint rs) f.
Proof.
  unfold met. induction rs as [ | r rs IH ]; simpl; [ reflexivity | ].
  destruct (fingerprint_eqb (record_fingerprint r) f); simpl; [ reflexivity | ].
  rewrite IH. now destruct (existsb _ (map record_fingerprint rs)).
Qed.

Lemma length_met (fs : list Fingerprint) (f : Fingerprint) :
  List.length fs <= List.length (met fs f).
Proof.
  unfold met. destruct (existsb _ fs); [ lia | ].
  rewrite length_app. simpl. lia.
Qed.

Lemma length_met_all (attempts : list (Request * value))
  (fs : list Fingerprint) :
  List.length fs
  <= List.length
       (fold_left (fun fs a => met fs (fingerprint_of (fst a))) attempts fs).
Proof.
  revert fs. induction attempts as [ | a attempts IH ]; intros fs; simpl.
  - lia.
  - pose proof (length_met fs (fingerprint_of (fst a))).
    pose proof (IH (met fs (fingerprint_of (fst a)))). lia.
Qed.

(** Within the cap no record is evicted. *)
Lemma track_within_cap (t : RequestTracker) (request : Request)
  (response : value) :
  List.length (met (map record_fingerprint (records t)) (fingerprint_of request))
  <= cap t ->
  records (track t request response)
  = upsert (records t) (fingerprint_of request) response.
Proof.
  intros H. unfold track, evict. cbn [records].
  rewrite <- fingerprints_upsert with (response := response), length_map in H.
  replace (List.length (upsert (records t) (fingerprint_of request) response)
           - cap t) with 0 by lia.
  reflexivity.
Qed.

(** As long as the distinct fingerprints recorded stay within the cap,
    the count on record for a fingerprint is the number of attempts
    recorded with it. *)
Lemma track_all_counts (attempts : list (Request * value)) (t : RequestTracker)
  (f : Fingerprint) :
  List.length
    (fold_left (fun fs a => met fs (fingerprint_of (fst a))) attempts
               (map record_fingerprint (records t))) <= cap t ->
  limit (track_all t attempts) = limit t
  /\ occurrences (records (track_all t attempts)) f
     = occurrences (records t) f + attempts_with f attempts.
Proof.
  revert t. induction attempts as [ | [request response] attempts IH ];
    intros t H; simpl in *.
  - split; [ reflexivity | unfold attempts_with; simpl; lia ].
  - assert (W : List.length (met (map record_fingerprint (records t))
                                 (fingerprint_of request)) <= cap t).
    { pose proof (length_met_all attempts
                    (met (map record_fingerprint (records t))
                         (fingerprint_of request))). lia. }
    pose proof (track_within_cap t request response W) as R.
    destruct (IH (track t request response)) as [Lim Occ].
    { rewrite R, fingerprints_upsert. exact H. }
    unfold track_all in *. split; [ now rewrite Lim | ].
    rewrite Occ, R, occurrences_upsert. unfold attempts_with. simpl.
    destruct (fingerprint_eqb (fingerprint_of request) f); simpl; lia.
Qed.

(* ================================================================== *)
(** ** The instantiation ceiling *)
(* ================================================================== *)

(** What a refused [createInstance] does: it logs, calls the error
    callback if there is one, and makes no request. *)
Lemma createInstance_refused (o : option Options) (includeFilters : bool)
  (w : world) (request : Request) :
  built_request (this w) (default_options o) includeFilters = Ok request ->
  canRequestBePerformed (_requestTracker (this w)) request = false ->
  exists evs,
    snd (createInstance o includeFilters w) = add w evs
    /\ count is_instantiateMap evs = 0
    /\ (error (default_options o) <> None -> In Options_error evs)
    /\ ((forall x, error (default_options o) <> Some (Throws x)) ->
        createInstance o includeFilters w = (Ok tt, add w evs)
        /\ evs = ([Log_error [ceiling_message; payload request;
                              VObj (params request)]]
                  ++ call_events (error (default_options o)) Options_error)%list).
Proof.
  intros B C. rewrite createInstance_run, B, C. cbv zeta.
  destruct (error (default_options o)) as [ [ | x ] | ] eqn:E.
  - eexists. split; [ reflexivity | ]. simpl.
    split; [ reflexivity | ]. split; [ auto | ]. intros _. split; reflexivity.
  - rewrite createInstance_catch_run, E, add_add. eexists.
    split; [ reflexivity | ]. simpl.
    split; [ reflexivity | ]. split; [ auto | ].
    intros H. now elim (H x).
  - eexists. split; [ reflexivity | ]. simpl.
    split; [ reflexivity | ]. split; [ congruence | ]. intros _.
    split; reflexivity.
Qed.

(** C1, as the spec's tracker has it.  For a tracker built with a limit
    and a cap, and any attempts recorded since, in any order, among
    which no more distinct fingerprints occur than the cap allows (so
    that no record was evicted): [canRequestBePerformed] is false for a
    request exactly when at least [limit] of the recorded attempts
    carried its fingerprint, whatever was recorded in between; and a
    [createInstance] call that builds such a request is refused
    locally: no [instantiateMap] call is made, the object is unchanged,
    and the error callback, when the caller gave one, is invoked. *)
Theorem ceiling_rejects_locally (maxNumberOfRequests tracker_cap : nat)
  (attempts : list (Request * value)) :
  List.length (distinct_fingerprints attempts) <= tracker_cap ->
  (forall request,
     canRequestBePerformed
       (track_all (new_RequestTracker maxNumberOfRequests tracker_cap) attempts)
       request
     = (attempts_with (fingerprint_of request) attempts
        <? maxNumberOfRequests)%nat)
  /\ (forall w o includeFilters request,
        _requestTracker (this w)
        = track_all (new_RequestTracker maxNumberOfRequests tracker_cap)
                    attempts ->
        built_request (this w) (default_options o) includeFilters = Ok request ->
        maxNumberOfRequests
        <= attempts_with (fingerprint_of request) attempts ->
        exists evs,
          snd (createInstance o includeFilters w) = add w evs
          /\ this (snd (createInstance o includeFilters w)) = this w
          /\ count is_instantiateMap evs = 0
          /\ (error (default_options o) <> None -> In Options_error evs)).
Proof.
  intros D.
  assert (C : forall request,
             canRequestBePerformed
               (track_all (new_RequestTracker maxNumberOfRequests tracker_cap)
                          attempts) request
             = (attempts_with (fingerprint_of request) attempts
                <? maxNumberOfRequests)%nat).
  { intros request. unfold canRequestBePerformed.
    destruct (track_all_counts attempts
                (new_RequestTracker maxNumberOfRequests tracker_cap)
                (fingerprint_of request) D) as [Lim Occ].
    rewrite Lim, Occ. cbn [limit records new_RequestTracker occurrences].
    rewrite Nat.add_0_l. apply eq_sym, Nat.ltb_antisym. }
  split; [ exact C | ].
  intros w o includeFilters request T R L.
  assert (Refused : canRequestBePerformed (_requestTracker (this w)) request
                    = false).
  { rewrite T, C. now apply Nat.ltb_ge. }
  destruct (createInstance_refused o includeFilters w request R Refused)
    as (evs & S & I & Cb & _).
  exists evs. split; [ exact S | ]. split; [ | auto ].
  apply createInstance_frame.
Qed.

Lemma ceiling_rejects_locally_witness :
  canRequestBePerformed
    (track_all (new_RequestTracker MAP_INSTANTIATION_LIMIT 8)
               interleaved_attempts) example_request
  = false
  /\ canRequestBePerformed
       (track_all (new_RequestTracker MAP_INSTANTIATION_LIMIT 8)
                  interleaved_attempts) other_request
     = true
  /\ exists evs,
       snd (createInstance (Some example_options) false interleaved_world)
       = add interleaved_world evs
       /\ this (snd (createInstance (Some example_options) false
                       interleaved_world))
          = this interleaved_world
       /\ count is_instantiateMap evs = 0
       /\ (error (default_options (Some example_options)) <> None ->
           In Options_error evs).
Proof.
  assert (D : List.length (distinct_fingerprints interleaved_attempts) <= 8)
    by (vm_compute; lia).
  pose proof (ceiling_rejects_locally MAP_INSTANTIATION_LIMIT 8
                interleaved_attempts D) as (Query & Call).
  split; [ | split ].
  - rewrite Query. reflexivity.
  - rewrite Query. reflexivity.
  - apply (Call interleaved_world (Some example_options) false example_request).
    + reflexivity.
    + reflexivity.
    + vm_compute. lia.
Defined.

(** C1 as stated fails in a tracker whose cap is smaller than the number
    of distinct fingerprints recorded: with a cap of 1, the record of a
    fingerprint is evicted when another is recorded, and its count
    starts again.  After the same attempts, three of which carried the
    fingerprint of the request, the count on record is 2 and the
    request reaches the client. *)
Lemma evicted_record_counts_anew :
  attempts_with (fingerprint_of example_request) interleaved_attempts = 3
  /\ canRequestBePerformed
       (track_all (new_RequestTracker MAP_INSTANTIATION_LIMIT 1)
                  interleaved_attempts) example_request
     = true
  /\ createInstance (Some example_options) false
       {| this := example_map
                    (track_all (new_RequestTracker MAP_INSTANTIATION_LIMIT 1)
                               interleaved_attempts)
                    (Ok example_payload);
          trace := [] |}
     = (Ok tt,
        {| this := example_map
                     (track_all (new_RequestTracker MAP_INSTANTIATION_LIMIT 1)
                                interleaved_attempts)
                     (Ok example_payload);
           trace := [Client_instantiateMap example_payload
                       [("stat_tag", VStr "tag"); ("api_key", VStr "key")]
                       example_request] |}).
Proof. repeat split. Qed.

(* ================================================================== *)
(** ** Build failures *)
(* ================================================================== *)

(** What [createInstance] does when building the request throws. *)
Lemma createInstance_build_failure (o : option Options) (includeFilters : bool)
  (w : world) (e : exn) :
  built_request (this w) (default_options o) includeFilters = Throw e ->
  createInstance o includeFilters w
  = (call_result (error (default_options o)),
     add w ([ModelUpdater_setErrors
               [ {| message := VStr (exn_message e);
                    context := [("message", VStr (exn_message e))] |} ];
             Log_error [VStr (exn_message e)]]
            ++ call_events (error (default_options o)) Options_error)).
Proof.
  intros B. now rewrite createInstance_run, B, createInstance_catch_run.
Qed.

Lemma built_request_toJSON_throws (this : WindshaftMap) (opts : Options)
  (includeFilters : bool) (e : exn) :
  toJSON this = Throw e -> built_request this opts includeFilters = Throw e.
Proof. intros H. unfold built_request. now rewrite H. Qed.

(** C3, as the code has it.  When building the payload or the params
    throws, the exception is caught and wrapped into exactly one
    WindshaftError carrying its message, which goes to [setErrors]; the
    error callback, when the caller gave one, is invoked exactly once;
    no request is made, and nothing is recorded in the tracker: the
    object is left as it was. *)
Theorem build_failure_is_reported (o : option Options) (includeFilters : bool)
  (w : world) (e : exn) :
  built_request (this w) (default_options o) includeFilters = Throw e ->
  exists evs,
    snd (createInstance o includeFilters w) = add w evs
    /\ filter is_setErrors evs
       = [ModelUpdater_setErrors
            [ {| message := VStr (exn_message e);
                 context := [("message", VStr (exn_message e))] |} ]]
    /\ (error (default_options o) <> None -> count is_error_callback evs = 1)
    /\ count is_instantiateMap evs = 0
    /\ count is_track evs = 0
    /\ _requestTracker (this (snd (createInstance o includeFilters w)))
       = _requestTracker (this w).
Proof.
  intros B. rewrite (createInstance_build_failure _ _ _ _ B).
  eexists. split; [ reflexivity | ].
  destruct (error (default_options o)) as [ c | ]; simpl;
    repeat split; try reflexivity. congruence.
Qed.

Lemma build_failure_is_reported_witness :
  exists evs,
    snd (createInstance (Some example_options) true failing_world)
    = add failing_world evs
    /\ filter is_setErrors evs
       = [ModelUpdater_setErrors
            [ {| message :=
                   VStr "Subclasses of windshaft/map-base must implement .toJSON";
                 context :=
                   [("message",
                     VStr "Subclasses of windshaft/map-base must implement .toJSON")]
              |} ]]
    /\ (error (default_options (Some example_options)) <> None ->
        count is_error_callback evs = 1)
    /\ count is_instantiateMap evs = 0
    /\ count is_track evs = 0
    /\ _requestTracker
         (this (snd (createInstance (Some example_options) true failing_world)))
       = _requestTracker (this failing_world).
Proof.
  apply (build_failure_is_reported (Some example_options) true failing_world
           (JsError "Error"
              "Subclasses of windshaft/map-base must implement .toJSON")).
  reflexivity.
Defined.

(** C3 as stated fails: after a [createInstance] whose [toJSON] throws,
    the tracker holds no record and [track] was never called. *)
Lemma build_failure_is_not_tracked :
  built_request (this failing_world) example_options true
  = Throw (JsError "Error"
             "Subclasses of windshaft/map-base must implement .toJSON")
  /\ records (_requestTracker
                (this (snd (createInstance (Some example_options) true
                              failing_world)))) = []
  /\ count is_track
       (trace (snd (createInstance (Some example_options) true failing_world)))
     = 0.
Proof. repeat split. Qed.

(* ================================================================== *)
(** ** The error kinds *)
(* ================================================================== *)

(** C2, as the code has it.  A build failure and a failed response
    (backend error or network failure, the response being an object)
    both end in [setErrors] and in the caller's error callback, when
    there is one.  A request refused at the ceiling is logged, makes no
    request, and ends in the error callback; [setErrors] is not called
    for it, unless the error callback throws: its exception is then
    caught by the [catch] block of [createInstance], which calls
    [setErrors] once and the error callback a second time.
    [createInstance] throws only what the caller's own error callback
    throws. *)
Theorem error_kinds_outcomes (o : option Options) (includeFilters : bool)
  (w : world) :
  (forall e,
     built_request (this w) (default_options o) includeFilters = Throw e ->
     exists evs,
       snd (createInstance o includeFilters w) = add w evs
       /\ count is_setErrors evs = 1
       /\ (error (default_options o) <> None -> In Options_error evs))
  /\ (forall request,
        built_request (this w) (default_options o) includeFilters = Ok request ->
        canRequestBePerformed (_requestTracker (this w)) request = false ->
        exists evs,
          createInstance o includeFilters w
          = (call_result (error (default_options o)), add w evs)
          /\ In (Log_error [ceiling_message; payload request;
                            VObj (params request)]) evs
          /\ (error (default_options o) <> None -> In Options_error evs)
          /\ count is_instantiateMap evs = 0
          /\ count is_setErrors evs
             = match error (default_options o) with
               | Some (Throws _) => 1
               | _ => 0
               end
          /\ count is_error_callback evs
             = match error (default_options o) with
               | Some (Throws _) => 2
               | Some Returns => 1
               | None => 0
               end)
  /\ (forall request response,
        nullish response = false ->
        exists windshaftErrors evs,
          _getErrorsFromResponse response = Ok windshaftErrors
          /\ trace (snd (instantiateMap_error request response w))
             = (trace w ++ evs)%list
          /\ In (ModelUpdater_setErrors windshaftErrors) evs
          /\ (error (options request) <> None -> In Options_error evs))
  /\ (forall e,
        fst (createInstance o includeFilters w) = Throw e ->
        error (default_options o) = Some (Throws e)).
Proof.
  split_all.
  - intros e B. rewrite (createInstance_build_failure _ _ _ _ B).
    eexists. split; [ reflexivity | ].
    destruct (error (default_options o)); simpl; split;
      try reflexivity; auto; congruence.
  - intros request B C. rewrite createInstance_run, B, C. cbv zeta.
    destruct (error (default_options o)) as [ [ | x ] | ] eqn:E.
    + eexists. split; [ reflexivity | ]. simpl. split_all; auto.
    + rewrite createInstance_catch_run, E, add_add.
      eexists. split; [ reflexivity | ]. simpl. split_all; auto.
    + eexists. split; [ reflexivity | ]. simpl. split_all; auto; congruence.
  - intros request response N.
    destruct (_getErrorsFromResponse_total response N) as [errs E].
    exists errs. eexists. split; [ exact E | ].
    rewrite instantiateMap_error_run, E. cbn [snd trace].
    split; [ reflexivity | ]. split; [ simpl; auto | ].
    destruct (error (options request)); simpl; auto; congruence.
  - intros e. rewrite createInstance_run.
    destruct (built_request _ _ _) as [ request | e' ].
    + destruct (canRequestBePerformed _ _); [ discriminate | ]. cbv zeta.
      destruct (error (default_options o)) as [ [ | x ] | ] eqn:E;
        try discriminate.
      rewrite createInstance_catch_run, E. simpl. congruence.
    + rewrite createInstance_catch_run.
      destruct (error (default_options o)) as [ [ | x ] | ];
        simpl; congruence.
Qed.

Lemma error_kinds_outcomes_witness :
  (exists evs,
     snd (createInstance (Some example_options) false failing_world)
     = add failing_world evs
     /\ count is_setErrors evs = 1
     /\ (error (default_options (Some example_options)) <> None ->
         In Options_error evs))
  /\ (exists evs,
        createInstance (Some throwing_options) false ceiling_world
        = (Throw (JsError "Error" "callback failed"), add ceiling_world evs)
        /\ In (Log_error [ceiling_message; example_payload;
                          VObj [("stat_tag", VStr "tag");
                                ("api_key", VStr "key")]]) evs
        /\ (error (default_options (Some throwing_options)) <> None ->
            In Options_error evs)
        /\ count is_instantiateMap evs = 0
        /\ count is_setErrors evs = 1
        /\ count is_error_callback evs = 2)
  /\ (exists windshaftErrors evs,
        _getErrorsFromResponse (VObj [("errors", VArr [VStr "timeout"])])
        = Ok windshaftErrors
        /\ trace (snd (instantiateMap_error example_request
                         (VObj [("errors", VArr [VStr "timeout"])])
                         fresh_world))
           = (trace fresh_world ++ evs)%list
        /\ In (ModelUpdater_setErrors windshaftErrors) evs
        /\ (error (options example_request) <> None -> In Options_error evs)).
Proof.
  pose proof (error_kinds_outcomes (Some example_options) false failing_world)
    as (Build & _).
  pose proof (error_kinds_outcomes (Some throwing_options) false ceiling_world)
    as (_ & Ceiling & _).
  pose proof (error_kinds_outcomes (Some example_options) false fresh_world)
    as (_ & _ & Backend & _).
  split; [ | split ].
  - apply (Build (JsError "Error"
                    "Subclasses of windshaft/map-base must implement .toJSON")).
    reflexivity.
  - apply (Ceiling (Build_Request example_payload
                      [("stat_tag", VStr "tag"); ("api_key", VStr "key")]
                      throwing_options)); reflexivity.
  - apply (Backend example_request (VObj [("errors", VArr [VStr "timeout"])])).
    reflexivity.
Defined.

(** C2 as stated fails: a request refused at the ceiling is logged and
    reaches the error callback, and [setErrors] is not called. *)
Lemma ceiling_rejection_skips_setErrors :
  canRequestBePerformed (_requestTracker (this ceiling_world)) example_request
  = false
  /\ createInstance (Some example_options) false ceiling_world
     = (Ok tt,
        add ceiling_world
          [Log_error [ceiling_message; example_payload;
                      VObj [("stat_tag", VStr "tag"); ("api_key", VStr "key")]];
           Options_error])
  /\ count is_setErrors
       (trace (snd (createInstance (Some example_options) false ceiling_world)))
     = 0.
Proof. repeat split. Qed.

(* ================================================================== *)
(** ** Completion of a request *)
(* ================================================================== *)

(** C4, as the code has it.  When the backend call succeeds the handler,
    in this order, records the request and the response in the tracker,
    sets the response on the model, calls [updateModels] with the model
    as it then is, triggers [instanceCreated], and calls the success
    callback.  Setting the response writes every field of the response
    over the attribute of the same name and keeps every attribute the
    response does not carry.  The success handler fires the success
    callback once and the error callback never; the error handler fires
    the error callback once and the success callback never; an accepted
    [createInstance] fires neither. *)
Theorem success_handler_sequence (request : Request) (response : value)
  (w : world) :
  (exists this',
     snd (instantiateMap_success request response w)
     = {| this := this';
          trace :=
            (trace w
             ++ [Tracker_track request response;
                 Model_set response;
                 ModelUpdater_updateModels this' (sourceId (options request))
                                           (forceFetch (options request));
                 Trigger "instanceCreated"]
             ++ call_events (success (options request))
                            (Options_success this'))%list |}
     /\ _requestTracker this'
        = track (_requestTracker (this w)) request response
     /\ attributes this' = set (attributes (this w)) response
     /\ (forall fields k,
           response = VObj fields ->
           get (attributes this') k
           = if has_key fields k then obj_get fields k
             else get (attributes (this w)) k))
  /\ (exists evs,
        trace (snd (instantiateMap_success request response w))
        = (trace w ++ evs)%list
        /\ count is_success_callback evs
           = match success (options request) with Some _ => 1 | None => 0 end
        /\ count is_error_callback evs = 0)
  /\ (nullish response = false ->
      exists evs,
        trace (snd (instantiateMap_error request response w))
        = (trace w ++ evs)%list
        /\ count is_error_callback evs
           = match error (options request) with Some _ => 1 | None => 0 end
        /\ count is_success_callback evs = 0)
  /\ (forall o includeFilters,
        built_request (this w) (default_options o) includeFilters = Ok request ->
        canRequestBePerformed (_requestTracker (this w)) request = true ->
        createInstance o includeFilters w
        = (Ok tt,
           add w [Client_instantiateMap (payload request) (params request)
                                        request])).
Proof.
  split_all.
  - exists (instantiated (this w) request response).
    rewrite instantiateMap_success_run. cbn [snd].
    split; [ reflexivity | ]. split; [ reflexivity | ].
    split; [ reflexivity | ].
    intros fields k ->. apply get_set_obj.
  - rewrite instantiateMap_success_run. cbn [snd trace].
    eexists. split; [ reflexivity | ].
    rewrite !count_app, !count_call_events. simpl.
    now destruct (success (options request)).
  - intros N. destruct (_getErrorsFromResponse_total response N) as [errs E].
    rewrite instantiateMap_error_run, E. cbn [snd trace].
    eexists. split; [ reflexivity | ].
    rewrite !count_app, !count_call_events. simpl.
    now destruct (error (options request)).
  - intros o includeFilters B C. now rewrite createInstance_run, B, C.
Qed.

Lemma success_handler_sequence_witness :
  (exists evs,
     trace (snd (instantiateMap_error example_request
                   (VObj [("errors", VArr [VStr "timeout"])]) fresh_world))
     = (trace fresh_world ++ evs)%list
     /\ count is_error_callback evs
        = match error (options example_request) with Some _ => 1 | None => 0 end
     /\ count is_success_callback evs = 0)
  /\ createInstance (Some example_options) false fresh_world
     = (Ok tt,
        add fresh_world
          [Client_instantiateMap (payload example_request)
             (params example_request) example_request]).
Proof.
  pose proof (success_handler_sequence example_request
                (VObj [("errors", VArr [VStr "timeout"])]) fresh_world)
    as (_ & _ & Failed & Accepted).
  split.
  - apply Failed. reflexivity.
  - apply (Accepted (Some example_options) false); reflexivity.
Defined.

(** C4 as stated fails: after a successful response that carries no CDN
    host map, the model has the new instance id next to the CDN host map
    of the earlier response, and builds its URLs from both. *)
Lemma stale_cdn_host_kept :
  get_own example_response "cdn_url" = VUndefined
  /\ get (attributes
            (this (snd (instantiateMap_success example_request
                          example_response fresh_world)))) "layergroupid"
     = VStr "new"
  /\ get (attributes
            (this (snd (instantiateMap_success example_request
                          example_response fresh_world)))) "cdn_url"
     = VObj [("http", VStr "cdn.example.com")]
  /\ getBaseURL "api/v1/map"
       (this (snd (instantiateMap_success example_request example_response
                     fresh_world))) (VStr "1")
     = Ok "http://1.cdn.example.com/acme/api/v1/map/new".
Proof. repeat split. Qed.

(* ================================================================== *)
(** ** The params of the request sent *)
(* ================================================================== *)

(** C8.  The params [createInstance] builds hold the stat tag and at
    most one credential: the API key when one is set, whatever the auth
    token; else the auth token when one is set; never both.  They are
    the params of the request handed to the client. *)
Theorem params_hold_one_credential (o : option Options) (includeFilters : bool)
  (w : world) :
  credentials_ok (this w) (_getParams (this w))
  /\ (forall request,
        built_request (this w) (default_options o) includeFilters = Ok request ->
        credentials_ok (this w) (params request))
  /\ (forall evs mapDefinition ps handlers,
        snd (createInstance o includeFilters w) = add w evs ->
        In (Client_instantiateMap mapDefinition ps handlers) evs ->
        credentials_ok (this w) ps).
Proof.
  split; [ apply _getParams_credentials | ].
  split.
  - intros request B. now apply built_request_params in B.
  - intros evs md ps h. rewrite createInstance_run.
    destruct (built_request _ _ _) as [ request | e ] eqn:B.
    + apply built_request_params in B as (C & _).
      destruct (canRequestBePerformed _ _); cbv zeta.
      * cbn [snd]. unfold add. intros [= E]. apply app_inv_head in E as <-.
        intros [ [= _ <- _] | [] ]. exact C.
      * destruct (error (default_options o)) as [ [ | x ] | ] eqn:E;
          try rewrite createInstance_catch_run, E, add_add;
          cbn [snd]; unfold add; intros [= E']; apply app_inv_head in E' as <-;
          simpl; intuition discriminate.
    + rewrite createInstance_catch_run. cbn [snd]. unfold add.
      intros [= E']. apply app_inv_head in E' as <-.
      destruct (error (default_options o)); simpl; intuition discriminate.
Qed.

Lemma params_hold_one_credential_witness :
  credentials_ok (this fresh_world)
    [("stat_tag", VStr "tag"); ("api_key", VStr "key")].
Proof.
  pose proof (params_hold_one_credential (Some example_options) false
                fresh_world) as (_ & _ & Sent).
  apply (Sent [Client_instantiateMap example_payload
                 [("stat_tag", VStr "tag"); ("api_key", VStr "key")]
                 example_request]
              example_payload
              [("stat_tag", VStr "tag"); ("api_key", VStr "key")]
              example_request).
  - reflexivity.
  - left. reflexivity.
Defined.

(* ================================================================== *)
(** ** Metadata queries *)
(* ================================================================== *)

Lemma has_key_of_get (o : obj) (k : string) :
  obj_get o k <> VUndefined -> has_key o k = true.
Proof.
  intros H. destruct (has_key o k) eqn:E; [ reflexivity | ].
  now apply obj_get_no_key in E.
Qed.

Lemma metadata_list_found (this : WindshaftMap) (key : string) (fields : obj) :
  get (attributes this) "metadata" = VObj fields ->
  truthy (obj_get fields key) = true ->
  metadata_list this key = Ok (obj_get fields key).
Proof.
  intros M T. unfold metadata_list. rewrite M. simpl. now rewrite T.
Qed.


(** The layers are always there, and always truthy. *)
Lemma metadata_list_total (this : WindshaftMap) (key : string) :
  exists v, metadata_list this key = Ok v /\ truthy v = true.
Proof.
  unfold metadata_list.
  destruct (truthy (get (attributes this) "metadata")) eqn:T.
  - rewrite (prop_truthy _ _ T). cbn [rbind].
    destruct (truthy (get_own _ key)) eqn:T'; eauto.
  - cbn [rbind]. rewrite T. eauto.
Qed.

Lemma nth_of_nth_error (l : list value) (i : nat) (v : value) :
  nth_error l i = Some v -> nth i l VUndefined = v.
Proof. intros H. now apply nth_error_nth. Qed.

(** [getLayerMetadata], whatever the layers and the index are. *)
Lemma getLayerMetadata_run (this : WindshaftMap) (layers layerIndex : value) :
  _getLayers this = Ok layers ->
  truthy layers = true ->
  getLayerMetadata this layerIndex
  = let layer := get_own layers (ToString layerIndex) in
    if truthy layer then
      Ok (if truthy (get_own layer "meta") then get_own layer "meta"
          else VObj [])
    else Ok (VObj []).
Proof.
  intros L T. unfold getLayerMetadata. rewrite L. cbn [rbind]. rewrite T.
  rewrite (lookup_at_truthy _ _ T). cbn [rbind]. cbv zeta.
  destruct (lookup_cases layers (ToString layerIndex)) as [ E | [U [h E]] ];
    rewrite E; cbn [truthy_property property_prop rbind].
  - destruct (truthy (get_own layers (ToString layerIndex))) eqn:T';
      [ | reflexivity ].
    now rewrite (prop_truthy _ _ T').
  - rewrite U. reflexivity.
Qed.

(** [getLayerMetadata] when the layers are an array. *)
Lemma getLayerMetadata_array (this : WindshaftMap) (layers : list value) (i : nat) :
  _getLayers this = Ok (VArr layers) ->
  getLayerMetadata this (VNum (Z.of_nat i))
  = let layer := nth i layers VUndefined in
    if truthy layer then
      Ok (if truthy (get_own layer "meta") then get_own layer "meta"
          else VObj [])
    else Ok (VObj []).
Proof.
  intros L. rewrite (getLayerMetadata_run _ _ _ L eq_refl).
  now rewrite ToString_index, get_own_array_index.
Qed.

(** C9.  After a successful instantiation whose response has, at index
    [i] of the layer list of its metadata, a layer with a metadata
    object, [getLayerMetadata(i)] returns that object as it came. *)
Theorem layer_metadata_round_trip (request : Request) (w : world)
  (fields metadata : obj) (layers : list value) (i : nat) (layer : obj) :
  obj_get fields "metadata" = VObj metadata ->
  obj_get metadata "layers" = VArr layers ->
  nth_error layers i = Some (VObj layer) ->
  truthy (obj_get layer "meta") = true ->
  getLayerMetadata
    (this (snd (instantiateMap_success request (VObj fields) w)))
    (VNum (Z.of_nat i))
  = Ok (obj_get layer "meta").
Proof.
  intros M L N T.
  rewrite instantiateMap_success_run. cbn [snd this].
  assert (G : get (attributes (instantiated (this w) request (VObj fields)))
                  "metadata" = VObj metadata).
  { unfold instantiated. cbn [attributes]. rewrite get_set_obj.
    rewrite has_key_of_get by (rewrite M; discriminate). exact M. }
  rewrite (getLayerMetadata_array _ layers).
  - cbv zeta. rewrite (nth_of_nth_error _ _ _ N). simpl. now rewrite T.
  - unfold _getLayers. rewrite (metadata_list_found _ _ _ G); rewrite L;
      reflexivity.
Qed.

Lemma layer_metadata_round_trip_witness :
  getLayerMetadata
    (this (snd (instantiateMap_success example_request example_response
                  fresh_world)))
    (VNum (Z.of_nat 0))
  = Ok (VObj [("stats", VNum 3)]).
Proof.
  apply (layer_metadata_round_trip example_request fresh_world
           [("layergroupid", VStr "new");
            ("metadata",
             VObj [("layers",
                    VArr [VObj [("type", VStr "mapnik");
                                ("meta", VObj [("stats", VNum 3)])]])])]
           [("layers",
             VArr [VObj [("type", VStr "mapnik");
                         ("meta", VObj [("stats", VNum 3)])]])]
           [VObj [("type", VStr "mapnik"); ("meta", VObj [("stats", VNum 3)])]]
           0
           [("type", VStr "mapnik"); ("meta", VObj [("stats", VNum 3)])]);
    reflexivity.
Defined.







Lemma mapM_prop_throws (key : string) (es : list (value * value)) :
  Exists (fun kx => nullish (snd kx) = true) es ->
  mapM (fun kx => prop (snd kx) key) es = Throw TypeError_property.
Proof.
  induction es as [ | kx es IH ]; intros H; [ inversion H | ].
  simpl. destruct (nullish (snd kx)) eqn:N.
  - destruct (snd kx); try discriminate; reflexivity.
  - rewrite (prop_not_nullish _ _ N). cbn [rbind].
    inversion H as [ ? ? N' | ? ? H' ]; subst; [ congruence | ].
    now rewrite (IH H').
Qed.

(** The fold of [getLayerIndexesByType] over entries none of which is
    [null] or [undefined]. *)
Lemma layer_indexes_fold (layerType : value) (es : list (value * value))
  (layerIndexes : list value) :
  Forall (fun kx => nullish (snd kx) = false) es ->
  foldM (fun m kx =>
           (type <- prop (snd kx) "type" ;;
            Ok (if strict_eq type layerType
                then (m ++ [fst kx])%list else m))%result)
        es layerIndexes
  = Ok (layerIndexes
        ++ map fst (filter (fun kx => strict_eq (get_own (snd kx) "type")
                                                layerType) es))%list.
Proof.
  intros H. revert layerIndexes.
  induction H as [ | kx es N _ IH ]; intros layerIndexes; simpl.
  - now rewrite app_nil_r.
  - rewrite (prop_not_nullish _ _ N). cbn [rbind]. rewrite IH.
    destruct (strict_eq _ layerType); simpl; [ | reflexivity ].
    now rewrite <- app_assoc.
Qed.

Lemma layer_indexes_fold_throws (layerType : value) (es : list (value * value))
  (layerIndexes : list value) :
  Exists (fun kx => nullish (snd kx) = true) es ->
  foldM (fun m kx =>
           (type <- prop (snd kx) "type" ;;
            Ok (if strict_eq type layerType
                then (m ++ [fst kx])%list else m))%result)
        es layerIndexes
  = Throw TypeError_property.
Proof.
  revert layerIndexes. induction es as [ | kx es IH ]; intros layerIndexes H;
    [ inversion H | ].
  simpl. destruct (nullish (snd kx)) eqn:N.
  - destruct (snd kx); try discriminate; reflexivity.
  - rewrite (prop_not_nullish _ _ N). cbn [rbind].
    inversion H as [ ? ? N' | ? ? H' ]; subst; [ congruence | ].
    now apply IH.
Qed.












(* ================================================================== *)
(** ** Host resolution *)
(* ================================================================== *)











Lemma truthy_subhost (subhost : option string) :
  (if truthy (subhost_argument subhost)
   then ToString (subhost_argument subhost) ++ "."
   else "")
  = subhost_prefix subhost.
Proof.
  destruct subhost as [ label | ]; simpl; [ | reflexivity ].
  now destruct (label =? "").
Qed.

Section HostResolver.

(** A model whose URL template and account name are strings. *)
Variable this : WindshaftMap.
Variables template account : string.
Hypothesis template_stored :
  get (attributes this) "urlTemplate" = VStr template.
Hypothesis account_stored :
  get (attributes this) "userName" = VStr account.

Lemma _useHTTPS_string :
  _useHTTPS this = Ok (String.prefix "https" template).
Proof.
  unfold _useHTTPS. rewrite template_stored.
  now rewrite indexOf_zero_prefix.
Qed.

(** C6.  For a stored URL template (a string), the protocol is https
    exactly when the template starts with the text [https]: a check on
    the template alone, whatever CDN host is stored.  The supported
    subdomains are ["0"; "1"; "2"; "3"] for http and [""] for https. *)
Theorem protocol_and_subdomains :
  (_useHTTPS this = Ok true <-> exists rest, template = "https" ++ rest)
  /\ (_useHTTPS this = Ok true \/ _useHTTPS this = Ok false)
  /\ (_useHTTPS this = Ok false ->
      getSupportedSubdomains this = Ok ["0"; "1"; "2"; "3"])
  /\ (_useHTTPS this = Ok true ->
      getSupportedSubdomains this = Ok [""]).
Proof.
  pose proof _useHTTPS_string as E.
  split_all.
  - split.
    + rewrite E. intros [= P]. now apply prefix_append.
    + intros P. apply prefix_append in P. now rewrite E, P.
  - rewrite E. destruct (String.prefix "https" template); auto.
  - intros F. unfold getSupportedSubdomains. now rewrite F.
  - intros T. unfold getSupportedSubdomains. now rewrite T.
Qed.

Lemma _getHost_resolved (subhost : option string) :
  _getHost this (subhost_argument subhost)
  = Ok (resolved_host this template account subhost).
Proof.
  unfold _getHost.
  rewrite _useHTTPS_string, template_stored, account_stored.
  cbn [rbind ToString]. rewrite truthy_subhost.
  unfold resolved_host, cdn_host, resolved_protocol. cbv zeta.
  destruct (truthy (get (attributes this) "cdn_url")) eqn:C.
  - rewrite (prop_truthy _ _ C). cbn [rbind andb].
    destruct (String.prefix "https" template);
      destruct (truthy (get_own _ _)); reflexivity.
  - cbn [rbind andb]. rewrite C. reflexivity.
Qed.


End HostResolver.

Lemma protocol_and_subdomains_witness :
  (_useHTTPS (example_map fresh_tracker base_toJSON) = Ok true
   <-> exists rest, "http://{user}.example.com" = "https" ++ rest)
  /\ (_useHTTPS (example_map fresh_tracker base_toJSON) = Ok true
      \/ _useHTTPS (example_map fresh_tracker base_toJSON) = Ok false)
  /\ (_useHTTPS (example_map fresh_tracker base_toJSON) = Ok false ->
      getSupportedSubdomains (example_map fresh_tracker base_toJSON)
      = Ok ["0"; "1"; "2"; "3"])
  /\ (_useHTTPS (example_map fresh_tracker base_toJSON) = Ok true ->
      getSupportedSubdomains (example_map fresh_tracker base_toJSON)
      = Ok [""]).
Proof.
  apply (protocol_and_subdomains (example_map fresh_tracker base_toJSON)
           "http://{user}.example.com").
  reflexivity.
Defined.



(** The host resolver cases of section 8 of the spec. *)
Example subdomains_of_https_template :
  getSupportedSubdomains
    {| attributes := [("urlTemplate", VStr "https://{user}.example.com");
                      ("userName", VStr "acme")];
       _dataviewsCollection := [];
       _requestTracker := fresh_tracker;
       toJSON := base_toJSON |}
  = Ok [""].
Proof. reflexivity. Qed.

Example subdomains_of_http_template :
  getSupportedSubdomains
    {| attributes := [("urlTemplate", VStr "http://{user}.example.com");
                      ("userName", VStr "acme")];
       _dataviewsCollection := [];
       _requestTracker := fresh_tracker;
       toJSON := base_toJSON |}
  = Ok ["0"; "1"; "2"; "3"].
Proof. reflexivity. Qed.

Example host_behind_cdn :
  _getHost (example_map fresh_tracker base_toJSON) (VStr "1")
  = Ok "http://1.cdn.example.com/acme".
Proof. reflexivity. Qed.

Example host_from_template :
  _getHost
    {| attributes := [("urlTemplate", VStr "https://{user}.example.com");
                      ("userName", VStr "acme")];
       _dataviewsCollection := [];
       _requestTracker := fresh_tracker;
       toJSON := base_toJSON |} (VStr "1")
  = Ok "https://acme.example.com".
Proof. reflexivity. Qed.

(** [replace] reads a dollar in the replacement as a pattern, and stops
    at the first occurrence. *)
Example replace_patterns :
  String_replace "http://{user}.example.com/{user}" "{user}" "a$$b"
  = "http://a$b.example.com/{user}"
  /\ String_replace "http://{user}.example.com" "{user}" "$&"
     = "http://{user}.example.com".
Proof. split; reflexivity. Qed.

(** The scenario of section 8 of the spec: three identical calls reach
    the client and are recorded, the fourth is refused, logged, and ends
    in the error callback. *)
Example fourth_identical_call_is_refused :
  count is_instantiateMap (trace (snd (four_identical_calls fresh_world))) = 3
  /\ count is_track (trace (snd (four_identical_calls fresh_world))) = 3
  /\ occurrences
       (records (_requestTracker (this (snd (four_identical_calls fresh_world)))))
       (fingerprint_of example_request) = 3
  /\ skipn 16 (trace (snd (four_identical_calls fresh_world)))
     = [Log_error [ceiling_message; example_payload;
                   VObj [("stat_tag", VStr "tag"); ("api_key", VStr "key")]];
        Options_error].
Proof. repeat split. Qed.

(* ================================================================== *)
(** ** Building the model *)
(* ================================================================== *)

(** [initialize] throws for the first option it misses, in the order
    client, layersCollection, dataviewsCollection, analysisCollection,
    modelUpdater, and builds nothing; given all five it stores the
    template and the account name of the client over the attributes it
    was given, keeps every other attribute, and starts a tracker with
    the limit of 3 and no record. *)
Theorem initialize_requires_options (class_toJSON : result value)
  (tracker_cap : nat) (attrs : obj) (options : InitOptions) :
  (forall name,
     first_missing options = Some name ->
     initialize class_toJSON tracker_cap attrs options
     = Throw (JsError "Error" (name ++ " option is required")))
  /\ (first_missing options = None ->
      exists c dataviews this,
        client options = Some c
        /\ dataviewsCollection options = Some dataviews
        /\ initialize class_toJSON tracker_cap attrs options = Ok this
        /\ get (attributes this) "urlTemplate" = urlTemplate c
        /\ get (attributes this) "userName" = userName c
        /\ (forall k, k <> "urlTemplate" -> k <> "userName" ->
              get (attributes this) k = get attrs k)
        /\ _dataviewsCollection this = dataviews
        /\ toJSON this = class_toJSON
        /\ limit (_requestTracker this) = 3
        /\ records (_requestTracker this) = []).
Proof.
  unfold first_missing, initialize.
  destruct options as [ [ c | ] [ l | ] [ d | ] [ a | ] [ m | ] ];
    cbn [client layersCollection dataviewsCollection analysisCollection
         modelUpdater required rbind];
    (split; [ intros name [= <-]; reflexivity | ]); try discriminate.
  intros _. exists c, d. eexists.
  split; [ reflexivity | ]. split; [ reflexivity | ].
  split; [ reflexivity | ]. cbn [attributes _dataviewsCollection toJSON
                                 _requestTracker].
  rewrite !get_set_obj. split; [ reflexivity | ]. split; [ reflexivity | ].
  split; [ | repeat split ].
  intros k H1 H2. rewrite get_set_obj. rewrite !has_key_cons.
  apply String.eqb_neq in H1, H2.
  rewrite (String.eqb_sym "urlTemplate"), H1.
  rewrite (String.eqb_sym "userName"), H2. reflexivity.
Qed.

Lemma initialize_requires_options_witness :
  initialize base_toJSON 8 [("apiKey", VStr "key")]
    {| client := Some {| urlTemplate := VStr "http://{user}.example.com";
                         userName := VStr "acme" |};
       layersCollection := Some tt;
       dataviewsCollection := None;
       analysisCollection := None;
       modelUpdater := Some tt |}
  = Throw (JsError "Error" "dataviewsCollection option is required").
Proof.
  pose proof (initialize_requires_options base_toJSON 8 [("apiKey", VStr "key")]
                {| client := Some {| urlTemplate := VStr "http://{user}.example.com";
                                     userName := VStr "acme" |};
                   layersCollection := Some tt;
                   dataviewsCollection := None;
                   analysisCollection := None;
                   modelUpdater := Some tt |}) as (Missing & _).
  apply (Missing "dataviewsCollection"). reflexivity.
Defined.

(* ================================================================== *)
(** ** The filters of the dataviews *)
(* ================================================================== *)








(* ================================================================== *)
(** ** What createInstance does, path by path *)
(* ================================================================== *)

Lemma _getParams_no_filters (this : WindshaftMap) :
  has_key (_getParams this) "filters" = false.
Proof.
  unfold _getParams.
  destruct (truthy (get (attributes this) "apiKey")); [ reflexivity | ].
  destruct (truthy (get (attributes this) "authToken")); reflexivity.
Qed.

(** An accepted [createInstance] makes one call to the client and
    nothing else.  Without [includeFilters] the params are those of
    [_getParams] and the dataviews are not read; with it they get the
    key [filters] exactly when the filters are not empty, every other
    key staying as [_getParams] built it. *)
Theorem accepted_request_reaches_client (o : option Options) (w : world)
  (mapDefinition : value) :
  toJSON (this w) = Ok mapDefinition ->
  (canRequestBePerformed (_requestTracker (this w))
     (Build_Request mapDefinition (_getParams (this w)) (default_options o))
   = true ->
   createInstance o false w
   = (Ok tt,
      add w [Client_instantiateMap mapDefinition (_getParams (this w))
               (Build_Request mapDefinition (_getParams (this w))
                              (default_options o))]))
  /\ (forall filters,
        _getFilterParamFromDataviews (this w) = Ok filters ->
        let ps := if _isEmpty filters then _getParams (this w)
                  else obj_set (_getParams (this w)) "filters" (VObj filters) in
        canRequestBePerformed (_requestTracker (this w))
          (Build_Request mapDefinition ps (default_options o)) = true ->
        createInstance o true w
        = (Ok tt,
           add w [Client_instantiateMap mapDefinition ps
                    (Build_Request mapDefinition ps (default_options o))])
        /\ has_key ps "filters" = negb (_isEmpty filters)
        /\ (forall k, k <> "filters" ->
              obj_get ps k = obj_get (_getParams (this w)) k)).
Proof.
  intros J. split.
  - intros C. rewrite createInstance_run. unfold built_request.
    rewrite J. cbn [rbind]. now rewrite C.
  - intros filters F. cbv zeta. intros C. split; [ | split ].
    + rewrite createInstance_run. unfold built_request.
      rewrite J, F. cbn [rbind].
      destruct (_isEmpty filters); cbn [negb] in *; now rewrite C.
    + destruct (_isEmpty filters); cbn [negb].
      * apply _getParams_no_filters.
      * rewrite has_key_set. reflexivity.
    + intros k N. destruct (_isEmpty filters); [ reflexivity | ].
      rewrite obj_get_set. apply String.eqb_neq in N.
      now rewrite String.eqb_sym, N.
Qed.

Lemma accepted_request_reaches_client_witness :
  createInstance (Some example_options) true
    {| this := filtered_map example_dataviews; trace := [] |}
  = (Ok tt,
     add {| this := filtered_map example_dataviews; trace := [] |}
       [Client_instantiateMap example_payload
          [("stat_tag", VStr "tag"); ("api_key", VStr "key");
           ("filters",
            VObj [("dataviews",
                   VObj [("category", VObj [("accept", VArr [VStr "a"])]);
                         ("range", VNum 2)])])]
          (Build_Request example_payload
             [("stat_tag", VStr "tag"); ("api_key", VStr "key");
              ("filters",
               VObj [("dataviews",
                      VObj [("category", VObj [("accept", VArr [VStr "a"])]);
                            ("range", VNum 2)])])]
             example_options)]).
Proof.
  pose proof (accepted_request_reaches_client (Some example_options)
                {| this := filtered_map example_dataviews; trace := [] |}
                example_payload eq_refl) as (_ & Filtered).
  apply (Filtered [("dataviews",
                    VObj [("category", VObj [("accept", VArr [VStr "a"])]);
                          ("range", VNum 2)])]); reflexivity.
Defined.

Lemma sequence_cons (step : M unit) (steps : list (M unit)) (w : world) :
  sequence (step :: steps) w
  = match step w with
    | (Ok _, w') => sequence steps w'
    | (Throw e, w') => (Throw e, w')
    end.
Proof. reflexivity. Qed.

(** [createInstance] records nothing: repeated before the client has
    answered, an accepted call is accepted again every time, beyond the
    limit of the tracker too. *)
Theorem unanswered_calls_all_reach_client (o : option Options)
  (includeFilters : bool) (w : world) (request : Request) (n : nat) :
  built_request (this w) (default_options o) includeFilters = Ok request ->
  canRequestBePerformed (_requestTracker (this w)) request = true ->
  sequence (repeat (createInstance o includeFilters) n) w
  = (Ok tt,
     add w (repeat (Client_instantiateMap (payload request) (params request)
                                          request) n)).
Proof.
  intros B C.
  assert (G : forall evs,
             sequence (repeat (createInstance o includeFilters) n) (add w evs)
             = (Ok tt,
                add (add w evs)
                  (repeat (Client_instantiateMap (payload request)
                                                 (params request) request) n))).
  { induction n as [ | n IH ]; intros evs.
    - simpl. unfold ret. now rewrite add_nil.
    - cbn [repeat]. rewrite sequence_cons, createInstance_run.
      cbn [add this]. rewrite B, C. fold (add w evs).
      rewrite add_add, IH, !add_add. now rewrite <- app_assoc. }
  specialize (G []). now rewrite add_nil in G.
Qed.

Lemma unanswered_calls_all_reach_client_witness :
  sequence (repeat (createInstance (Some example_options) false) 5) fresh_world
  = (Ok tt,
     add fresh_world
       (repeat (Client_instantiateMap (payload example_request)
                                      (params example_request)
                                      example_request) 5)).
Proof.
  apply (unanswered_calls_all_reach_client (Some example_options) false
           fresh_world example_request 5); reflexivity.
Defined.

(** A refused request whose error callback throws: the exception lands
    in the [catch] block of [createInstance], which reports it through
    [setErrors], logs it, and calls the error callback a second time;
    what that second call throws leaves [createInstance]. *)
Theorem refused_with_throwing_callback (o : option Options)
  (includeFilters : bool) (w : world) (request : Request) (x : exn) :
  built_request (this w) (default_options o) includeFilters = Ok request ->
  canRequestBePerformed (_requestTracker (this w)) request = false ->
  error (default_options o) = Some (Throws x) ->
  createInstance o includeFilters w
  = (Throw x,
     add w [Log_error [ceiling_message; payload request; VObj (params request)];
            Options_error;
            ModelUpdater_setErrors
              [ {| message := VStr (exn_message x);
                   context := [("message", VStr (exn_message x))] |} ];
            Log_error [VStr (exn_message x)];
            Options_error]).
Proof.
  intros B C E. rewrite createInstance_run, B, C. cbv zeta. rewrite E.
  rewrite createInstance_catch_run, E, add_add. reflexivity.
Qed.

Lemma refused_with_throwing_callback_witness :
  count is_error_callback
    (trace (snd (createInstance (Some throwing_options) false
                   {| this := this ceiling_world; trace := [] |}))) = 2
  /\ fst (createInstance (Some throwing_options) false
            {| this := this ceiling_world; trace := [] |})
     = Throw (JsError "Error" "callback failed").
Proof.
  rewrite (refused_with_throwing_callback (Some throwing_options) false
             {| this := this ceiling_world; trace := [] |}
             (Build_Request example_payload
                [("stat_tag", VStr "tag"); ("api_key", VStr "key")]
                throwing_options)
             (JsError "Error" "callback failed") eq_refl eq_refl eq_refl).
  split; reflexivity.
Defined.

(** [createInstance] returns normally when the request is accepted, and
    otherwise returns or throws as the error callback does: it never
    throws when the caller gave no error callback. *)
Theorem createInstance_result (o : option Options) (includeFilters : bool)
  (w : world) :
  fst (createInstance o includeFilters w)
  = if accepted w o includeFilters then Ok tt
    else call_result (error (default_options o)).
Proof.
  rewrite createInstance_run. unfold accepted.
  destruct (built_request _ _ _) as [ request | e ].
  - destruct (canRequestBePerformed _ _); [ reflexivity | ]. cbv zeta.
    destruct (error (default_options o)) as [ [ | x ] | ] eqn:E;
      try reflexivity.
    now rewrite createInstance_catch_run, E.
  - now rewrite createInstance_catch_run.
Qed.

(** [createInstance] calls the client once when the request is accepted
    and not at all otherwise; an accepted call does nothing else, a call
    that is not accepted is always logged; and no call ever records an
    attempt, sets a response, updates the models, triggers
    [instanceCreated] or calls the success callback. *)
Theorem createInstance_effects (o : option Options) (includeFilters : bool)
  (w : world) :
  exists evs,
    snd (createInstance o includeFilters w) = add w evs
    /\ count is_instantiateMap evs
       = (if accepted w o includeFilters then 1 else 0)
    /\ count is_completion_event evs = 0
    /\ (if accepted w o includeFilters then List.length evs = 1
        else 1 <= count is_log evs).
Proof.
  rewrite createInstance_run. unfold accepted.
  destruct (built_request _ _ _) as [ request | e ].
  - destruct (canRequestBePerformed _ _).
    + eexists. split; [ reflexivity | ]. repeat split.
    + cbv zeta.
      destruct (error (default_options o)) as [ [ | x ] | ] eqn:E;
        try rewrite createInstance_catch_run, E, add_add;
        (eexists; split; [ reflexivity | ]); simpl;
          repeat split; unfold count; simpl; lia.
  - rewrite createInstance_catch_run.
    eexists. split; [ reflexivity | ].
    destruct (error (default_options o)) as [ c | ]; simpl;
      repeat split; unfold count; simpl; lia.
Qed.

(** When [toJSON] throws, nothing else is read: whatever the dataviews
    and the tracker hold, and with or without [includeFilters], the
    exception of [toJSON] is the one reported through [setErrors], the
    log and the error callback, and no request is made. *)
Theorem toJSON_failure_comes_first (o : option Options) (includeFilters : bool)
  (w : world) (e : exn) :
  toJSON (this w) = Throw e ->
  createInstance o includeFilters w
  = (call_result (error (default_options o)),
     add w ([ModelUpdater_setErrors
               [ {| message := VStr (exn_message e);
                    context := [("message", VStr (exn_message e))] |} ];
             Log_error [VStr (exn_message e)]]
            ++ call_events (error (default_options o)) Options_error)).
Proof.
  intros J. apply createInstance_build_failure.
  now apply built_request_toJSON_throws.
Qed.

Lemma toJSON_failure_comes_first_witness :
  createInstance None true base_class_world
  = (Ok tt,
     add base_class_world
       [ModelUpdater_setErrors
          [ {| message :=
                 VStr "Subclasses of windshaft/map-base must implement .toJSON";
               context :=
                 [("message",
                   VStr "Subclasses of windshaft/map-base must implement .toJSON")]
            |} ];
        Log_error
          [VStr "Subclasses of windshaft/map-base must implement .toJSON"]]).
Proof.
  apply (toJSON_failure_comes_first None true base_class_world
           (JsError "Error"
              "Subclasses of windshaft/map-base must implement .toJSON")).
  reflexivity.
Defined.



(* ================================================================== *)
(** ** Failed responses *)
(* ================================================================== *)

(** An empty [errors_with_context] list gives no error, whatever
    [errors] holds.  Without [errors_with_context], an empty [errors]
    list still gives one error, whose message is [undefined], and an
    [errors] that is a string gives one error whose message is its
    first character. *)
Theorem getErrorsFromResponse_edges (fields : obj) :
  (obj_get fields "errors_with_context" = VArr [] ->
   _getErrorsFromResponse (VObj fields) = Ok [])
  /\ (truthy (obj_get fields "errors_with_context") = false ->
      obj_get fields "errors" = VArr [] ->
      _getErrorsFromResponse (VObj fields)
      = Ok [ {| message := VUndefined;
                context := [("message", VUndefined)] |} ])
  /\ (forall c rest,
        truthy (obj_get fields "errors_with_context") = false ->
        obj_get fields "errors" = VStr (String c rest) ->
        _getErrorsFromResponse (VObj fields)
        = Ok [ {| message := VStr (String c "");
                  context := [("message", VStr (String c ""))] |} ]).
Proof.
  unfold _getErrorsFromResponse. cbn [prop get_own rbind].
  split_all.
  - intros E. rewrite E. reflexivity.
  - intros F E. rewrite F, E. reflexivity.
  - intros c rest F E. rewrite F, E. reflexivity.
Qed.

Lemma getErrorsFromResponse_edges_witness :
  _getErrorsFromResponse
    (VObj [("errors_with_context", VArr []); ("errors", VArr [VStr "a"])])
  = Ok []
  /\ _getErrorsFromResponse (VObj [("errors", VArr [])])
     = Ok [ {| message := VUndefined; context := [("message", VUndefined)] |} ]
  /\ _getErrorsFromResponse (VObj [("errors", VStr "timeout")])
     = Ok [ {| message := VStr "t"; context := [("message", VStr "t")] |} ].
Proof.
  pose proof (getErrorsFromResponse_edges
                [("errors_with_context", VArr []); ("errors", VArr [VStr "a"])])
    as (Contextual & _).
  pose proof (getErrorsFromResponse_edges [("errors", VArr [])])
    as (_ & Empty & _).
  pose proof (getErrorsFromResponse_edges [("errors", VStr "timeout")])
    as (_ & _ & Text).
  split_all.
  - apply Contextual. reflexivity.
  - apply Empty; reflexivity.
  - apply (Text "t"%char "imeout"); reflexivity.
Defined.

(** The error handler given no response at all ([null] or [undefined]):
    the attempt is recorded, then reading the errors throws a TypeError;
    [setErrors] is not called and the error callback is not invoked. *)
Theorem error_handler_without_response (request : Request) (response : value)
  (w : world) :
  nullish response = true ->
  instantiateMap_error request response w
  = (Throw TypeError_property,
     {| this := tracked (this w) request response;
        trace := (trace w ++ [Tracker_track request response])%list |}).
Proof.
  intros N. rewrite instantiateMap_error_run.
  destruct response; try discriminate; reflexivity.
Qed.

Lemma error_handler_without_response_witness :
  instantiateMap_error example_request VUndefined fresh_world
  = (Throw TypeError_property,
     {| this := tracked (this fresh_world) example_request VUndefined;
        trace := [Tracker_track example_request VUndefined] |}).
Proof.
  apply (error_handler_without_response example_request VUndefined fresh_world).
  reflexivity.
Defined.

(** The queries read the attributes and nothing else. *)
Lemma queries_read_attributes (a b : WindshaftMap) :
  attributes a = attributes b ->
  (forall i, getLayerMetadata a i = getLayerMetadata b i)
  /\ (forall t, getLayerIndexesByType a t = getLayerIndexesByType b t)
  /\ (forall id, getDataviewMetadata a id = getDataviewMetadata b id)
  /\ (forall id, getAnalysisNodeMetadata a id = getAnalysisNodeMetadata b id)
  /\ getSupportedSubdomains a = getSupportedSubdomains b
  /\ (forall base subhost, getBaseURL base a subhost = getBaseURL base b subhost).
Proof.
  intros E.
  unfold getLayerMetadata, getLayerIndexesByType, getDataviewMetadata,
    getAnalysisNodeMetadata, getSupportedSubdomains, getBaseURL, _getHost,
    _useHTTPS, _getLayers, _getDataviews, _getAnalyses, metadata_list.
  rewrite E. repeat split.
Qed.

(** A failed response changes no attribute, whatever it holds: after the
    error handler every query answers as it did before, and the tracker
    has recorded the attempt. *)
Theorem failed_response_keeps_metadata (request : Request) (response : value)
  (w : world) :
  attributes (this (snd (instantiateMap_error request response w)))
  = attributes (this w)
  /\ _requestTracker (this (snd (instantiateMap_error request response w)))
     = track (_requestTracker (this w)) request response
  /\ (forall i,
        getLayerMetadata (this (snd (instantiateMap_error request response w))) i
        = getLayerMetadata (this w) i)
  /\ (forall t,
        getLayerIndexesByType
          (this (snd (instantiateMap_error request response w))) t
        = getLayerIndexesByType (this w) t)
  /\ (forall id,
        getDataviewMetadata
          (this (snd (instantiateMap_error request response w))) id
        = getDataviewMetadata (this w) id)
  /\ (forall id,
        getAnalysisNodeMetadata
          (this (snd (instantiateMap_error request response w))) id
        = getAnalysisNodeMetadata (this w) id)
  /\ (forall base subhost,
        getBaseURL base (this (snd (instantiateMap_error request response w)))
                   subhost
        = getBaseURL base (this w) subhost).
Proof.
  assert (T : this (snd (instantiateMap_error request response w))
              = tracked (this w) request response).
  { rewrite instantiateMap_error_run.
    now destruct (_getErrorsFromResponse response). }
  rewrite T.
  destruct (queries_read_attributes (tracked (this w) request response)
              (this w) eq_refl) as (M & I & D & A & _ & B).
  repeat split; auto.
Qed.

(* ================================================================== *)
(** ** The queries on stored metadata *)
(* ================================================================== *)

Lemma In_indexed_from {A : Type} (l : list A) (s i : nat) (x : A) :
  In (i, x) (indexed_from s l) <-> s <= i /\ nth_error l (i - s) = Some x.
Proof.
  revert s. induction l as [ | y l IH ]; intros s; simpl.
  - split; [ intros [] | ]. intros [_ H]. now destruct (i - s).
  - rewrite IH. split.
    + intros [ [= <- <-] | [L N] ].
      * split; [ lia | ]. now rewrite Nat.sub_diag.
      * split; [ lia | ].
        replace (i - s) with (S (i - S s)) by lia. exact N.
    + intros [L N]. destruct (Nat.eq_dec s i) as [ <- | D ].
      * left. rewrite Nat.sub_diag in N. simpl in N. congruence.
      * right. split; [ lia | ].
        replace (i - s) with (S (i - S s)) in N by lia. exact N.
Qed.

(** The indexes that pass a test, taken from an indexed list, go up. *)
Lemma filtered_indexes_ascend {A : Type} (p : nat * A -> bool) (l : list A)
  (s : nat) :
  Forall (le s) (map fst (filter p (indexed_from s l)))
  /\ Sorted.StronglySorted lt (map fst (filter p (indexed_from s l))).
Proof.
  revert s. induction l as [ | y l IH ]; intros s; simpl.
  - split; constructor.
  - destruct (IH (S s)) as [Above Ascending].
    assert (B' : Forall (le s) (map fst (filter p (indexed_from (S s) l)))).
    { eapply Forall_impl; [ | exact Above ]. intros a H. simpl in H. lia. }
    destruct (p (s, y)); simpl.
    + split; constructor; auto.
    + split; assumption.
Qed.

Lemma index_entries_matching (layers : list value) (layerType : value) :
  map fst (filter (fun kx => strict_eq (get_own (snd kx) "type") layerType)
                  (index_entries layers))
  = map (fun i => VNum (Z.of_nat i)) (matching_indexes layers layerType).
Proof.
  unfold index_entries, matching_indexes.
  generalize 0. induction layers as [ | layer layers IH ]; intros s; simpl.
  - reflexivity.
  - destruct (strict_eq _ layerType); simpl; now rewrite IH.
Qed.

Lemma not_nullish_entries (layers : list value) :
  Forall (fun layer => nullish layer = false) layers ->
  Forall (fun kx => nullish (snd kx) = false) (index_entries layers).
Proof.
  intros H. apply Forall_forall. intros kx I.
  rewrite Forall_forall in H. apply H.
  rewrite <- (map_snd_index_entries layers). now apply in_map.
Qed.

(** For layers that are a list without [null] or [undefined] entries,
    and a type asked for that is not an array or an object (a string,
    as a rule), [getLayerIndexesByType] returns the indexes of the
    layers whose [type] is strictly equal to the one asked for: each of
    them, no other, in ascending order. *)
Theorem getLayerIndexesByType_selects (this : WindshaftMap)
  (layers : list value) (layerType : value) :
  _getLayers this = Ok (VArr layers) ->
  Forall (fun layer => nullish layer = false) layers ->
  primitive layerType = true ->
  getLayerIndexesByType this layerType
  = Ok (map (fun i => VNum (Z.of_nat i)) (matching_indexes layers layerType))
  /\ (forall i,
        In i (matching_indexes layers layerType)
        <-> exists layer,
              nth_error layers i = Some layer
              /\ strict_eq (get_own layer "type") layerType = true)
  /\ Sorted.StronglySorted lt (matching_indexes layers layerType).
Proof.
  intros L N _. split; [ | split ].
  - unfold getLayerIndexesByType. rewrite L. cbn [rbind].
    unfold _reduce. cbn [entries].
    rewrite <- index_entries_matching.
    exact (layer_indexes_fold layerType (index_entries layers) []
             (not_nullish_entries layers N)).
  - intros i. unfold matching_indexes. rewrite in_map_iff. split.
    + intros ([j layer] & <- & I). apply filter_In in I as [I Eq].
      apply In_indexed_from in I as [_ I]. rewrite Nat.sub_0_r in I.
      exists layer. auto.
    + intros (layer & I & Eq). exists (i, layer). split; [ reflexivity | ].
      apply filter_In. split; [ | exact Eq ].
      apply In_indexed_from. rewrite Nat.sub_0_r. split; [ lia | exact I ].
  - apply filtered_indexes_ascend.
Qed.

Lemma getLayerIndexesByType_selects_witness :
  getLayerIndexesByType (map_with_metadata example_metadata) (VStr "mapnik")
  = Ok [VNum 0; VNum 2].
Proof.
  apply (getLayerIndexesByType_selects (map_with_metadata example_metadata)
           [VObj [("type", VStr "mapnik");
                  ("widgets", VObj [("w1", VObj [("url", VStr "first")])])];
            VObj [("type", VStr "torque")];
            VObj [("type", VStr "mapnik");
                  ("widgets", VObj [("w1", VObj [("url", VStr "second")])])]]
           (VStr "mapnik") eq_refl); [ | reflexivity ].
  repeat constructor.
Defined.

Lemma nullish_entry (layers : list value) :
  Exists (fun layer => nullish layer = true) layers ->
  Exists (fun kx => nullish (snd kx) = true) (index_entries layers).
Proof.
  intros H. apply Exists_exists in H as (layer & I & N).
  rewrite <- (map_snd_index_entries layers) in I.
  apply in_map_iff in I as (kx & <- & I).
  apply Exists_exists. eauto.
Qed.

(** A [null] or [undefined] entry in a stored list makes the queries
    that walk the list throw a TypeError: [getLayerIndexesByType] for
    every type, [getAnalysisNodeMetadata] for every id, and
    [getDataviewMetadata] for every id under which reading the
    dataviews table finds nothing truthy. *)
Theorem queries_throw_on_null_entries (this : WindshaftMap) :
  (forall layers layerType,
     _getLayers this = Ok (VArr layers) ->
     Exists (fun layer => nullish layer = true) layers ->
     getLayerIndexesByType this layerType = Throw TypeError_property)
  /\ (forall layers dataviews id,
        _getLayers this = Ok (VArr layers) ->
        Exists (fun layer => nullish layer = true) layers ->
        _getDataviews this = Ok dataviews ->
        truthy_property (lookup dataviews (ToString id)) = false ->
        getDataviewMetadata this id = Throw TypeError_property)
  /\ (forall analyses id,
        _getAnalyses this = Ok (VArr analyses) ->
        Exists (fun analysis => nullish analysis = true) analyses ->
        getAnalysisNodeMetadata this id = Throw TypeError_property).
Proof.
  split; [ | split ].
  - intros layers layerType L X. unfold getLayerIndexesByType.
    rewrite L. cbn [rbind]. unfold _reduce. cbn [entries].
    exact (layer_indexes_fold_throws layerType _ [] (nullish_entry _ X)).
  - intros layers dataviews id L X D F.
    destruct (metadata_list_total this "dataviews") as (d & D' & T).
    unfold _getDataviews in D. rewrite D in D'. injection D' as <-.
    unfold getDataviewMetadata, _getDataviews. rewrite D, L. cbn [rbind].
    rewrite T, (lookup_at_truthy _ _ T). cbn [rbind].
    rewrite F. unfold _map. cbn [entries].
    now rewrite (mapM_prop_throws _ _ (nullish_entry _ X)).
  - intros analyses id A X. unfold getAnalysisNodeMetadata.
    rewrite A. cbn [rbind]. unfold _map. cbn [entries].
    now rewrite (mapM_prop_throws _ _ (nullish_entry _ X)).
Qed.

Lemma queries_throw_on_null_entries_witness :
  getLayerIndexesByType (map_with_metadata broken_metadata) (VStr "mapnik")
  = Throw TypeError_property
  /\ getDataviewMetadata (map_with_metadata broken_metadata) (VStr "w1")
     = Throw TypeError_property
  /\ getAnalysisNodeMetadata (map_with_metadata broken_metadata) (VStr "a0")
     = Throw TypeError_property.
Proof.
  pose proof (queries_throw_on_null_entries (map_with_metadata broken_metadata))
    as (Indexes & Dataview & Analysis).
  split; [ | split ].
  - apply (Indexes [VObj [("type", VStr "mapnik")]; VNull]);
      [ reflexivity | ]. right. left. reflexivity.
  - apply (Dataview [VObj [("type", VStr "mapnik")]; VNull]
             (VObj [("d1", VObj [("url", VStr "direct")])]));
      try reflexivity. right. left. reflexivity.
  - apply (Analysis [VNull]); [ reflexivity | ]. left. reflexivity.
Defined.

(** An id the dataviews table holds is answered from the table: the
    layers are not read, so neither their widgets nor a [null] entry
    among them changes the answer. *)
Theorem getDataviewMetadata_prefers_table (this : WindshaftMap)
  (dataviews id : value) :
  _getDataviews this = Ok dataviews ->
  truthy (get_own dataviews (ToString id)) = true ->
  getDataviewMetadata this id = Ok (Data (get_own dataviews (ToString id))).
Proof.
  intros D F.
  destruct (metadata_list_total this "dataviews") as (d & D' & T).
  unfold _getDataviews in D. rewrite D in D'. injection D' as <-.
  unfold getDataviewMetadata, _getDataviews. rewrite D. cbn [rbind].
  rewrite T, (lookup_at_truthy _ _ T). cbn [rbind].
  rewrite (lookup_truthy_own _ _ F). cbn [truthy_property].
  now rewrite F.
Qed.

Lemma getDataviewMetadata_prefers_table_witness :
  getDataviewMetadata (map_with_metadata broken_metadata) (VStr "d1")
  = Ok (Data (VObj [("url", VStr "direct")])).
Proof.
  apply (getDataviewMetadata_prefers_table (map_with_metadata broken_metadata)
           (VObj [("d1", VObj [("url", VStr "direct")])]) (VStr "d1"));
    reflexivity.
Defined.









(** Whatever is stored and whatever index is asked for,
    [getLayerMetadata] returns, and what it returns is truthy: never
    [undefined] or [null], so its properties can be read without a
    check. *)
Theorem getLayerMetadata_answers_an_object (this : WindshaftMap)
  (layerIndex : value) :
  exists meta,
    getLayerMetadata this layerIndex = Ok meta
    /\ truthy meta = true
    /\ nullish meta = false.
Proof.
  destruct (metadata_list_total this "layers") as (layers & L & T).
  rewrite (getLayerMetadata_run _ _ _ L T). cbv zeta.
  destruct (truthy (get_own layers (ToString layerIndex)));
    [ destruct (truthy (get_own _ "meta")) eqn:M | ];
    eexists; (split; [ reflexivity | ]); split;
      auto using truthy_not_nullish.
Qed.

(** The metadata queries read the [metadata] attribute and nothing
    else. *)
Lemma metadata_queries_read_metadata (a b : WindshaftMap) :
  get (attributes a) "metadata" = get (attributes b) "metadata" ->
  (forall i, getLayerMetadata a i = getLayerMetadata b i)
  /\ (forall t, getLayerIndexesByType a t = getLayerIndexesByType b t)
  /\ (forall id, getDataviewMetadata a id = getDataviewMetadata b id)
  /\ (forall id, getAnalysisNodeMetadata a id = getAnalysisNodeMetadata b id).
Proof.
  intros E.
  unfold getLayerMetadata, getLayerIndexesByType, getDataviewMetadata,
    getAnalysisNodeMetadata, _getLayers, _getDataviews, _getAnalyses,
    metadata_list.
  rewrite E. repeat split.
Qed.

(** After a successful response that carries a [metadata] field, the
    layer, dataview and analysis queries answer from that metadata
    alone, as a model holding nothing else would: no layer, dataview or
    analysis of an earlier response is left. *)
Theorem new_metadata_replaces_old (request : Request) (fields : obj)
  (w : world) :
  has_key fields "metadata" = true ->
  (forall i,
     getLayerMetadata
       (this (snd (instantiateMap_success request (VObj fields) w))) i
     = getLayerMetadata (map_with_metadata (obj_get fields "metadata")) i)
  /\ (forall t,
        getLayerIndexesByType
          (this (snd (instantiateMap_success request (VObj fields) w))) t
        = getLayerIndexesByType
            (map_with_metadata (obj_get fields "metadata")) t)
  /\ (forall id,
        getDataviewMetadata
          (this (snd (instantiateMap_success request (VObj fields) w))) id
        = getDataviewMetadata
            (map_with_metadata (obj_get fields "metadata")) id)
  /\ (forall id,
        getAnalysisNodeMetadata
          (this (snd (instantiateMap_success request (VObj fields) w))) id
        = getAnalysisNodeMetadata
            (map_with_metadata (obj_get fields "metadata")) id).
Proof.
  intros H. apply metadata_queries_read_metadata.
  rewrite instantiateMap_success_run. cbn [snd this].
  unfold instantiated. cbn [attributes]. rewrite get_set_obj, H.
  reflexivity.
Qed.

Lemma new_metadata_replaces_old_witness :
  getDataviewMetadata
    (this (snd (instantiateMap_success example_request
                  (VObj [("layergroupid", VStr "newer");
                         ("metadata", VObj [("layers", VArr [])])])
                  {| this := map_with_metadata example_metadata;
                     trace := [] |})))
    (VStr "d1")
  = getDataviewMetadata (map_with_metadata (VObj [("layers", VArr [])]))
      (VStr "d1").
Proof.
  pose proof (new_metadata_replaces_old example_request
                [("layergroupid", VStr "newer");
                 ("metadata", VObj [("layers", VArr [])])]
                {| this := map_with_metadata example_metadata; trace := [] |}
                eq_refl) as (_ & _ & Dataviews & _).
  apply Dataviews.
Defined.

(* ================================================================== *)
(** ** Host resolution at the edges *)
(* ================================================================== *)

(** Without a URL template the host cannot be resolved: [_useHTTPS],
    [getSupportedSubdomains] and [getBaseURL] throw a TypeError,
    whatever else is stored. *)
Theorem host_resolution_needs_template (this : WindshaftMap) :
  nullish (get (attributes this) "urlTemplate") = true ->
  _useHTTPS this = Throw TypeError_property
  /\ getSupportedSubdomains this = Throw TypeError_property
  /\ (forall MAPS_API_BASE_URL subhost,
        getBaseURL MAPS_API_BASE_URL this subhost = Throw TypeError_property).
Proof.
  intros N.
  assert (U : _useHTTPS this = Throw TypeError_property).
  { unfold _useHTTPS.
    destruct (get (attributes this) "urlTemplate"); try discriminate;
      reflexivity. }
  split_all.
  - exact U.
  - unfold getSupportedSubdomains. now rewrite U.
  - intros base subhost. unfold getBaseURL, _getHost. now rewrite U.
Qed.

Lemma host_resolution_needs_template_witness :
  getSupportedSubdomains (map_with_metadata example_metadata)
  = Throw TypeError_property.
Proof.
  apply (host_resolution_needs_template (map_with_metadata example_metadata)).
  reflexivity.
Defined.

(** Before any instantiation, when no layer group id is stored, the
    base URL is the host and the maps API base path followed by an
    empty last segment. *)
Theorem getBaseURL_without_instance (MAPS_API_BASE_URL : string)
  (this : WindshaftMap) (template account : string) (subhost : option string) :
  get (attributes this) "urlTemplate" = VStr template ->
  get (attributes this) "userName" = VStr account ->
  nullish (get (attributes this) "layergroupid") = true ->
  getBaseURL MAPS_API_BASE_URL this (subhost_argument subhost)
  = Ok (resolved_host this template account subhost
        ++ "/" ++ MAPS_API_BASE_URL ++ "/").
Proof.
  intros T U N. unfold getBaseURL.
  rewrite (_getHost_resolved this template account T U). cbn [rbind].
  unfold Array_join. cbn [map join_strings join_elem ToString].
  destruct (get (attributes this) "layergroupid"); try discriminate;
    reflexivity.
Qed.

Lemma getBaseURL_without_instance_witness :
  getBaseURL "api/v1/map"
    {| attributes := [("urlTemplate", VStr "https://{user}.example.com");
                      ("userName", VStr "acme")];
       _dataviewsCollection := [];
       _requestTracker := fresh_tracker;
       toJSON := base_toJSON |}
    (subhost_argument None)
  = Ok "https://acme.example.com/api/v1/map/".
Proof.
  apply (getBaseURL_without_instance "api/v1/map"
           {| attributes := [("urlTemplate", VStr "https://{user}.example.com");
                             ("userName", VStr "acme")];
              _dataviewsCollection := [];
              _requestTracker := fresh_tracker;
              toJSON := base_toJSON |}
           "https://{user}.example.com" "acme" None); reflexivity.
Defined.

(** A successful response that carries a layer group id, and neither a
    URL template, an account name nor a CDN host map, leaves the host as
    it was and makes the base URL end in the new id. *)
Theorem instantiation_sets_the_last_segment (MAPS_API_BASE_URL : string)
  (request : Request) (fields : obj) (w : world) (subhost : value) :
  has_key fields "urlTemplate" = false ->
  has_key fields "userName" = false ->
  has_key fields "cdn_url" = false ->
  has_key fields "layergroupid" = true ->
  _getHost (this (snd (instantiateMap_success request (VObj fields) w))) subhost
  = _getHost (this w) subhost
  /\ getBaseURL MAPS_API_BASE_URL
       (this (snd (instantiateMap_success request (VObj fields) w))) subhost
     = (host <- _getHost (this w) subhost ;;
        Ok (Array_join [VStr host; VStr MAPS_API_BASE_URL;
                        obj_get fields "layergroupid"] "/"))%result.
Proof.
  intros T U C L.
  rewrite instantiateMap_success_run. cbn [snd this].
  assert (H : _getHost (instantiated (this w) request (VObj fields)) subhost
              = _getHost (this w) subhost).
  { unfold _getHost, _useHTTPS, instantiated. cbn [attributes].
    now rewrite !get_set_obj, T, U, C. }
  split; [ exact H | ].
  unfold getBaseURL. rewrite H.
  unfold instantiated. cbn [attributes]. now rewrite get_set_obj, L.
Qed.

Lemma instantiation_sets_the_last_segment_witness :
  getBaseURL "api/v1/map"
    (this (snd (instantiateMap_success example_request example_response
                  fresh_world))) (VStr "2")
  = Ok "http://2.cdn.example.com/acme/api/v1/map/new".
Proof.
  pose proof (instantiation_sets_the_last_segment "api/v1/map" example_request
                [("layergroupid", VStr "new");
                 ("metadata",
                  VObj [("layers",
                         VArr [VObj [("type", VStr "mapnik");
                                     ("meta", VObj [("stats", VNum 3)])]])])]
                fresh_world (VStr "2") eq_refl eq_refl eq_refl eq_refl)
    as (_ & URL).
  exact URL.
Defined.
